(** * Okis: a shallow embedding of [Main.py] (Expense, ExpensePlanner)

    The planner of [Main.py] is a Python object holding a list of
    [Expense] objects, a dict of per-category budgets and a monthly
    budget.  The embedding keeps what the Python code observes:

    - numbers: the methods only use [0.0], [+], [-], [/] and the
      comparisons of whatever number type the amounts have, so the model
      is parametric in a [Number] structure.  Two instances are given:
      IEEE binary64 (Python's [float], through Rocq's primitive floats)
      and the rationals (arithmetic without rounding);
    - objects: lists and dicts are mutable heap objects reached through
      references, so that "returns a copy" is a statement about
      references and not a tautology; an [Expense] is a value, the class
      having no method that changes one;
    - exceptions: a method either returns a value or raises;
    - the clock ([date.today()]) and the identifier generator
      ([uuid.uuid4()]) are the two things the code reads from outside. *)

From Stdlib Require Import ZArith QArith Floats String Ascii List.
From Stdlib Require Import Sorted Permutation Lia.
From stdpp Require Import gmap strings pretty list fin_maps.

Local Open Scope string_scope.
Local Open Scope Z_scope.

(** ** Exceptions and outcomes *)

Inductive Exception : Type :=
| ValueError (msg : string)
| KeyError
| OverflowError  (* an int argument that does not fit the C int a builtin takes *)
| SystemError.   (* a reference to no object: never raised in a well-formed heap *)

Inductive Outcome (R : Type) : Type :=
| Return (r : R)
| Raise (e : Exception).
Arguments Return {R} r.
Arguments Raise {R} e.

Definition raises {R} (o : Outcome R) : Prop :=
  match o with Return _ => False | Raise _ => True end.

Definition raises_ValueError {R} (o : Outcome R) : Prop :=
  match o with Raise (ValueError _) => True | _ => False end.

(** ** Numbers *)

(** The operations Python dispatches on the amounts and budgets. *)
Class Number (A : Type) : Type := {
  zero : A;                      (* the literal 0.0 *)
  add : A -> A -> A;             (* x + y *)
  sub : A -> A -> A;             (* x - y *)
  truediv : A -> A -> A;         (* x / y *)
  of_int : Z -> A;               (* conversion of an int operand *)
  num_lt : A -> A -> bool;       (* x < y *)
  num_le : A -> A -> bool;       (* x <= y *)
  num_eq : A -> A -> bool        (* x == y *)
}.

(** [x > y] is [y < x]. *)
Definition num_gt {A} `{Number A} (x y : A) : bool := num_lt y x.

(** [x < y] excludes [y <= x]: true of every IEEE number, NaN included. *)
Definition lt_excludes_ge (A : Type) `{Number A} : Prop :=
  forall x y : A, num_lt x y = true -> num_le y x = false.

(** On the numbers that are [ordinary] the comparisons form a total order
    compatible with [==].  For floats this is true of every number but
    NaN, which no comparison relates to anything. *)
Record OrderLaws (A : Type) `{Number A} (ordinary : A -> Prop) : Prop := {
  lt_false_le : forall x y : A, ordinary x -> ordinary y ->
    num_lt x y = false -> num_le y x = true;
  lt_true_le : forall x y : A, ordinary x -> ordinary y ->
    num_lt x y = true -> num_le x y = true;
  eq_not_lt : forall x y a : A, ordinary x -> ordinary y -> ordinary a ->
    num_eq x a = true -> num_eq y a = true -> num_lt x y = false
}.

(** Amounts that are whole multiples of one unit: [emb n] is the number
    that stands for [n] units, and adding two such numbers is exact as
    long as the result stays within [bound] units.  For floats and whole
    amounts the unit is 1 and [emb] the conversion of an int. *)
Record ExactBelow (A : Type) `{Number A} (emb : Z -> A) (bound : Z) : Prop := {
  emb_zero : emb 0 = zero;
  emb_of_int : emb 0 = of_int 0;
  emb_add : forall a b : Z, 0 <= a -> 0 <= b -> a + b <= bound ->
    add (emb a) (emb b) = emb (a + b)
}.

(** Python [float]: IEEE 754 binary64. *)
Definition float_of_int (z : Z) : float :=
  match z with
  | Z0 => 0%float
  | Zpos _ => PrimFloat.of_uint63 (Uint63.of_Z z)
  | Zneg _ => PrimFloat.opp (PrimFloat.of_uint63 (Uint63.of_Z (Z.opp z)))
  end.

#[export] Instance float_Number : Number float := {|
  zero := 0%float;
  add := PrimFloat.add;
  sub := PrimFloat.sub;
  truediv := PrimFloat.div;
  of_int := float_of_int;
  num_lt := PrimFloat.ltb;
  num_le := PrimFloat.leb;
  num_eq := PrimFloat.eqb
|}.

(** Arithmetic without rounding: the rationals. *)
#[export] Instance Q_Number : Number Q := {|
  zero := 0%Q;
  add := Qplus;
  sub := Qminus;
  truediv := Qdiv;
  of_int := inject_Z;
  num_lt := fun x y => negb (Qle_bool y x);
  num_le := Qle_bool;
  num_eq := Qeq_bool
|}.

(** ** [datetime.date] *)

Module datetime.

Record date : Type := mkdate { year : Z; month : Z; day : Z }.

Definition MINYEAR : Z := 1.
Definition MAXYEAR : Z := 9999.

Definition is_leap (y : Z) : bool :=
  (y mod 4 =? 0) && (negb (y mod 100 =? 0) || (y mod 400 =? 0)).

Definition days_in_month (y m : Z) : Z :=
  if m =? 2 then (if is_leap y then 29 else 28)
  else if (m =? 4) || (m =? 6) || (m =? 9) || (m =? 11) then 30
  else 31.

(** [date] takes its three arguments as C ints. *)
Definition INT_MIN : Z := -2147483648.   (* - 2^31 *)
Definition INT_MAX : Z := 2147483647.    (* 2^31 - 1 *)

Definition c_int (z : Z) : bool := (INT_MIN <=? z) && (z <=? INT_MAX).

(** The constructor [date(y, m, d)]: an argument that is no C int raises
    OverflowError; then the fields are checked in this order (messages of
    CPython 3.8 to 3.13). *)
Definition new (y m d : Z) : Outcome date :=
  if negb (c_int y && c_int m && c_int d) then Raise OverflowError
  else if negb ((MINYEAR <=? y) && (y <=? MAXYEAR)) then
    Raise (ValueError ("year " +:+ pretty y +:+ " is out of range"))
  else if negb ((1 <=? m) && (m <=? 12)) then
    Raise (ValueError "month must be in 1..12")
  else if negb ((1 <=? d) && (d <=? days_in_month y m)) then
    Raise (ValueError "day is out of range for month")
  else Return (mkdate y m d).

(** [d.replace(day=n)] builds a new date through the constructor. *)
Definition replace_day (d : date) (n : Z) : Outcome date :=
  new (year d) (month d) n.

(** Dates compare as (year, month, day) triples. *)
Definition ltb (a b : date) : bool :=
  (year a <? year b)
  || ((year a =? year b)
      && ((month a <? month b)
          || ((month a =? month b) && (day a <? day b)))).

Definition leb (a b : date) : bool := negb (ltb b a).
Definition gtb (a b : date) : bool := ltb b a.

(** The chained comparison [lo <= d <= hi]. *)
Definition between (lo d hi : date) : bool := leb lo d && leb d hi.

Definition valid (d : date) : bool :=
  (MINYEAR <=? year d) && (year d <=? MAXYEAR)
  && (1 <=? month d) && (month d <=? 12)
  && (1 <=? day d) && (day d <=? days_in_month (year d) (month d)).

End datetime.

#[export] Instance date_eq_dec : EqDecision datetime.date.
Proof. solve_decision. Defined.

(** ** [Category] *)

Inductive Category : Type :=
| FOOD | TRANSPORT | ENTERTAINMENT | UTILITIES | HEALTH | EDUCATION | OTHER.

Definition value (c : Category) : string :=
  match c with
  | FOOD => "food" | TRANSPORT => "transport"
  | ENTERTAINMENT => "entertainment" | UTILITIES => "utilities"
  | HEALTH => "health" | EDUCATION => "education" | OTHER => "other"
  end.

(** Iteration order of [for category in Category]. *)
Definition Category_members : list Category :=
  [FOOD; TRANSPORT; ENTERTAINMENT; UTILITIES; HEALTH; EDUCATION; OTHER].

#[export] Instance Category_eq_dec : EqDecision Category.
Proof. solve_decision. Defined.

Definition Category_to_nat (c : Category) : nat :=
  match c with
  | FOOD => 0 | TRANSPORT => 1 | ENTERTAINMENT => 2 | UTILITIES => 3
  | HEALTH => 4 | EDUCATION => 5 | OTHER => 6
  end%nat.

Definition Category_of_nat (n : nat) : Category :=
  match n with
  | 0 => FOOD | 1 => TRANSPORT | 2 => ENTERTAINMENT | 3 => UTILITIES
  | 4 => HEALTH | 5 => EDUCATION | _ => OTHER
  end%nat.

#[export] Instance Category_countable : Countable Category.
Proof. by apply (inj_countable' Category_to_nat Category_of_nat); intros []. Defined.

(** A value passed where the code expects a [Category]: Python checks it
    at run time with [isinstance]. *)
Inductive PyObject : Type :=
| Member (c : Category)
| Str (s : string)
| NoneObject.

Definition isinstance_Category (o : PyObject) : bool :=
  match o with Member _ => true | _ => false end.

(** ** Strings: [str.strip] *)

Definition isspace (c : ascii) : bool :=
  let n := nat_of_ascii c in
  ((9 <=? n) && (n <=? 13) || (28 <=? n) && (n <=? 32) || (n =? 133) || (n =? 160))%nat.

Fixpoint lstrip (s : list ascii) : list ascii :=
  match s with
  | [] => []
  | c :: s' => if isspace c then lstrip s' else s
  end.

Definition strip (s : string) : string :=
  string_of_list_ascii
    (rev (lstrip (rev (lstrip (list_ascii_of_string s))))).

(** Truth value of a string: [not s] holds of the empty string only. *)
Definition str_truthy (s : string) : bool :=
  match s with EmptyString => false | String _ _ => true end.

(** References to heap objects. *)
Abbreviation loc := positive.

(** The identifier generator the program runs with: [uuid4 k] is what the
    call number [k] of [str(uuid.uuid4())] yields. *)
Class Generator : Type := { uuid4 : nat -> string }.

Section Planner.

Context {A : Type} {number : Number A} {generator : Generator}.

(** ** [Expense] *)

Record Expense : Type := mkExpense {
  id : string;
  description : string;
  amount : A;
  category : Category;
  date : datetime.date
}.

(** ** The heap and the planner object

    [lists] and [dicts] hold the list and dict objects alive in the
    program; the last three fields are the attributes of [self]. *)
Record World : Type := mkWorld {
  lists : gmap loc (list Expense);
  dicts : gmap loc (gmap Category A);
  uuid_calls : nat;
  _expenses : loc;
  _category_budgets : loc;
  _monthly_budget : A
}.

Definition with_lists (f : gmap loc (list Expense) -> gmap loc (list Expense))
    (w : World) : World :=
  mkWorld (f (lists w)) (dicts w) (uuid_calls w)
          (_expenses w) (_category_budgets w) (_monthly_budget w).

Definition with_dicts (f : gmap loc (gmap Category A) -> gmap loc (gmap Category A))
    (w : World) : World :=
  mkWorld (lists w) (f (dicts w)) (uuid_calls w)
          (_expenses w) (_category_budgets w) (_monthly_budget w).

(** What the planner owns: the contents of its list, of its dict, and
    its monthly budget. *)
Definition planner_state (w : World)
    : option (list Expense * gmap Category A * A) :=
  match lists w !! _expenses w, dicts w !! _category_budgets w with
  | Some l, Some d => Some (l, d, _monthly_budget w)
  | _, _ => None
  end.

(** ** Computations: state and exceptions *)

Definition M (R : Type) : Type := World -> Outcome R * World.

Definition ret {R} (r : R) : M R := fun w => (Return r, w).
Definition raise {R} (e : Exception) : M R := fun w => (Raise e, w).
Definition bind {R S} (c : M R) (k : R -> M S) : M S :=
  fun w => match c w with
           | (Return r, w') => k r w'
           | (Raise e, w') => (Raise e, w')
           end.
Definition lift {R} (o : Outcome R) : M R := fun w => (o, w).

#[global] Instance M_ret : MRet M := @ret.
#[global] Instance M_bind : MBind M := fun R S k c => bind c k.

(** Heap primitives. *)
Definition new_list (l : list Expense) : M loc :=
  fun w => let r := fresh (dom (lists w)) in
           (Return r, with_lists (insert r l) w).

Definition read_list (r : loc) : M (list Expense) :=
  fun w => match lists w !! r with
           | Some l => (Return l, w)
           | None => (Raise SystemError, w)
           end.

Definition write_list (r : loc) (l : list Expense) : M unit :=
  fun w => match lists w !! r with
           | Some _ => (Return tt, with_lists (insert r l) w)
           | None => (Raise SystemError, w)
           end.

Definition new_dict (d : gmap Category A) : M loc :=
  fun w => let r := fresh (dom (dicts w)) in
           (Return r, with_dicts (insert r d) w).

Definition read_dict (r : loc) : M (gmap Category A) :=
  fun w => match dicts w !! r with
           | Some d => (Return d, w)
           | None => (Raise SystemError, w)
           end.

Definition write_dict (r : loc) (d : gmap Category A) : M unit :=
  fun w => match dicts w !! r with
           | Some _ => (Return tt, with_dicts (insert r d) w)
           | None => (Raise SystemError, w)
           end.

(** [l.append(x)], [d[k] = v], [d[k]], [d.get(k, default)]. *)
Definition list_append (r : loc) (x : Expense) : M unit :=
  l ← read_list r; write_list r (l ++ [x]).

Definition dict_setitem (r : loc) (k : Category) (v : A) : M unit :=
  d ← read_dict r; write_dict r (<[k := v]> d).

Definition dict_getitem (r : loc) (k : Category) : M A :=
  d ← read_dict r;
  match d !! k with
  | Some v => ret v
  | None => raise KeyError
  end.

Definition dict_get (r : loc) (k : Category) (dflt : A) : M A :=
  d ← read_dict r; ret (default dflt (d !! k)).

(** Attributes of [self]. *)
Definition self_expenses : M loc := fun w => (Return (_expenses w), w).
Definition self_category_budgets : M loc :=
  fun w => (Return (_category_budgets w), w).
Definition self_monthly_budget : M A :=
  fun w => (Return (_monthly_budget w), w).

Definition set_self_expenses (r : loc) : M unit :=
  fun w => (Return tt,
            mkWorld (lists w) (dicts w) (uuid_calls w)
                    r (_category_budgets w) (_monthly_budget w)).
Definition set_self_category_budgets (r : loc) : M unit :=
  fun w => (Return tt,
            mkWorld (lists w) (dicts w) (uuid_calls w)
                    (_expenses w) r (_monthly_budget w)).
Definition set_self_monthly_budget (b : A) : M unit :=
  fun w => (Return tt,
            mkWorld (lists w) (dicts w) (uuid_calls w)
                    (_expenses w) (_category_budgets w) b).

(** [str(uuid.uuid4())]: the next identifier of the generator. *)
Definition uuid4_str : M string :=
  fun w => (Return (uuid4 (uuid_calls w)),
            mkWorld (lists w) (dicts w) (S (uuid_calls w))
                    (_expenses w) (_category_budgets w) (_monthly_budget w)).

(** A [for] loop whose body acts on the heap. *)
Fixpoint for_each {X} (l : list X) (body : X -> M unit) : M unit :=
  match l with
  | [] => ret tt
  | x :: l' => body x;; for_each l' body
  end.

(** The builtin [sum]: starts from the int 0 and adds left to right. *)
Definition sum (l : list A) : A := fold_left add l (of_int 0).

(** The builtin [sorted(l, key=key, reverse=True)]: a stable sort that
    compares keys with [<] only; here by insertion from the right, so
    that of two elements with equal keys the earlier stays first.

    This is the result of CPython's sort whenever [<] orders the keys
    totally, the stable sort of a list being unique then.  With a key
    that no comparison relates to the others (a NaN) the result of
    CPython depends on the runs and merges of its algorithm, and this
    definition stands for it only where the two are seen to agree, as on
    the keys 1.0, NaN, 2.0, which both leave in that order; on the keys
    1.0, NaN, 1.0, 2.0 they differ. *)
Fixpoint insert_reverse {X} (key : X -> A) (x : X) (s : list X) : list X :=
  match s with
  | [] => [x]
  | y :: s' =>
      if num_lt (key x) (key y) then y :: insert_reverse key x s'
      else x :: s
  end.

Definition sorted_reverse {X} (key : X -> A) (l : list X) : list X :=
  fold_right (insert_reverse key) [] l.

(** ** [Expense.__init__]

    [today] is what [date.today()] returns during the call. *)
Definition Expense_init (today : datetime.date) (description : string)
    (amount : A) (category : PyObject) (expense_date : datetime.date)
    : M Expense :=
  if negb (str_truthy description) || negb (str_truthy (strip description)) then
    raise (ValueError "Description cannot be empty")
  else if num_le amount (of_int 0) then
    raise (ValueError "Amount must be positive")
  else match category with
       | Member c =>
           if datetime.gtb expense_date today then
             raise (ValueError "Expense date cannot be in the future")
           else
             i ← uuid4_str;
             ret (mkExpense i (strip description) amount c expense_date)
       | _ => raise (ValueError "Invalid category")
       end.

(** ** [ExpensePlanner] *)

Definition _initialize_category_budgets : M unit :=
  for_each Category_members
    (fun category => r ← self_category_budgets; dict_setitem r category zero).

Definition ExpensePlanner_init : M unit :=
  l ← new_list [];
  set_self_expenses l;;
  d ← new_dict ∅;
  set_self_category_budgets d;;
  set_self_monthly_budget zero;;
  _initialize_category_budgets.

(** The world before the planner is constructed: no object, and
    attributes that refer to nothing. *)
Definition blank : World := mkWorld ∅ ∅ 0%nat 1%positive 1%positive zero.

(** [ExpensePlanner()] in a program that has no other object. *)
Definition new_planner : World := snd (ExpensePlanner_init blank).

Definition add_expense (today : datetime.date) (description : string)
    (amount : A) (category : PyObject) (expense_date : datetime.date)
    : M string :=
  expense ← Expense_init today description amount category expense_date;
  r ← self_expenses;
  list_append r expense;;
  ret (id expense).

Definition remove_expense (expense_id : option string) : M bool :=
  match expense_id with
  | Some i =>
      if negb (str_truthy i) then
        raise (ValueError "Expense ID cannot be empty")
      else
        r ← self_expenses;
        l ← read_list r;
        let initial_count := length l in
        r' ← new_list (List.filter (fun exp => negb (String.eqb (id exp) i)) l);
        set_self_expenses r';;
        l' ← read_list r';
        ret (length l' <? initial_count)%nat
  | None => raise (ValueError "Expense ID cannot be empty")
  end.

Definition set_monthly_budget (budget : A) : M unit :=
  if num_lt budget (of_int 0) then
    raise (ValueError "Budget cannot be negative")
  else set_self_monthly_budget budget.

Definition set_category_budget (category : PyObject) (budget : A) : M unit :=
  match category with
  | Member c =>
      if num_lt budget (of_int 0) then
        raise (ValueError "Budget cannot be negative")
      else r ← self_category_budgets; dict_setitem r c budget
  | _ => raise (ValueError "Invalid category")
  end.

Definition get_total_expenses (start_date end_date : option datetime.date)
    : M A :=
  match start_date, end_date with
  | Some s, Some e =>
      if datetime.gtb s e then
        raise (ValueError "Start date cannot be after end date")
      else
        r ← self_expenses;
        l ← read_list r;
        ret (fold_left
               (fun total expense =>
                  if datetime.between s (date expense) e
                  then add total (amount expense) else total)
               l zero)
  | _, _ => raise (ValueError "Dates cannot be None")
  end.

Definition get_expenses_by_category (cat : PyObject) : M loc :=
  match cat with
  | Member c =>
      r ← self_expenses;
      l ← read_list r;
      new_list (List.filter (fun exp => bool_decide (category exp = c)) l)
  | _ => raise (ValueError "Invalid category")
  end.

Definition get_remaining_monthly_budget (year month : Z) : M A :=
  if negb ((1 <=? month) && (month <=? 12)) then
    raise (ValueError "Month must be between 1 and 12")
  else
    start_date ← lift (datetime.new year month 1);
    end_date ←
      (if month =? 12 then lift (datetime.new year month 31)
       else
         end_date ← lift (datetime.new year (month + 1) 1);
         lift (datetime.replace_day end_date (datetime.day end_date - 1)));
    total_expenses ← get_total_expenses (Some start_date) (Some end_date);
    monthly ← self_monthly_budget;
    ret (sub monthly total_expenses).

Definition is_category_budget_exceeded (category : PyObject) : M bool :=
  match category with
  | Member c =>
      rb ← self_category_budgets;
      category_budget ← dict_getitem rb c;
      if num_eq category_budget (of_int 0) then ret false
      else
        r ← get_expenses_by_category category;
        l ← read_list r;
        let category_expenses := sum (map amount l) in
        ret (num_gt category_expenses category_budget)
  | _ => raise (ValueError "Invalid category")
  end.

Definition get_category_statistics (start_date end_date : option datetime.date)
    : M loc :=
  match start_date, end_date with
  | Some s, Some e =>
      statistics ← new_dict ∅;
      r ← self_expenses;
      l ← read_list r;
      for_each l
        (fun expense =>
           if datetime.between s (date expense) e then
             v ← dict_get statistics (category expense) zero;
             dict_setitem statistics (category expense) (add v (amount expense))
           else ret tt);;
      ret statistics
  | _, _ => raise (ValueError "Dates cannot be None")
  end.

Definition get_top_expenses (limit : Z) : M loc :=
  if limit <=? 0 then raise (ValueError "Limit must be positive")
  else
    r ← self_expenses;
    l ← read_list r;
    sorted_expenses ← new_list (sorted_reverse amount l);
    s ← read_list sorted_expenses;
    new_list (take (Z.to_nat limit) s).

(** The dict [get_expenses_summary] returns, key by key. *)
Record Summary : Type := mkSummary {
  total_expenses : A;
  expense_count : Z;
  average_expense : A;
  summary_monthly_budget : A;
  category_budgets : loc
}.

Definition get_expenses_summary : M Summary :=
  r ← self_expenses;
  l ← read_list r;
  let total := sum (map amount l) in
  let avg_expense :=
    match l with
    | [] => of_int 0
    | _ :: _ => truediv total (of_int (Z.of_nat (length l)))
    end in
  monthly ← self_monthly_budget;
  rb ← self_category_budgets;
  d ← read_dict rb;
  copy ← new_dict d;
  ret (mkSummary total (Z.of_nat (length l)) avg_expense monthly copy).

(** The properties [expenses] and [monthly_budget]. *)
Definition expenses : M loc :=
  r ← self_expenses;
  l ← read_list r;
  new_list l.

Definition monthly_budget : M A := self_monthly_budget.

Definition get_category_budget (category : PyObject) : M A :=
  match category with
  | Member c => rb ← self_category_budgets; dict_getitem rb c
  | _ => raise KeyError
  end.

(** ** Calls on the planner

    The read operations, as one type, and what they return. *)
Inductive Query : Type :=
| Q_get_total_expenses (start_date end_date : option datetime.date)
| Q_get_expenses_by_category (category : PyObject)
| Q_get_remaining_monthly_budget (year month : Z)
| Q_is_category_budget_exceeded (category : PyObject)
| Q_get_category_statistics (start_date end_date : option datetime.date)
| Q_get_top_expenses (limit : Z)
| Q_get_expenses_summary
| Q_expenses
| Q_monthly_budget
| Q_get_category_budget (category : PyObject).

Inductive Value : Type :=
| VNone
| VStr (s : string)
| VBool (b : bool)
| VNum (a : A)
| VList (r : loc)
| VDict (r : loc)
| VSummary (s : Summary).

Definition returning {R} (f : R -> Value) (c : M R) : M Value :=
  x ← c; ret (f x).

Definition query (q : Query) : M Value :=
  match q with
  | Q_get_total_expenses s e => returning VNum (get_total_expenses s e)
  | Q_get_expenses_by_category c => returning VList (get_expenses_by_category c)
  | Q_get_remaining_monthly_budget y m =>
      returning VNum (get_remaining_monthly_budget y m)
  | Q_is_category_budget_exceeded c =>
      returning VBool (is_category_budget_exceeded c)
  | Q_get_category_statistics s e =>
      returning VDict (get_category_statistics s e)
  | Q_get_top_expenses limit => returning VList (get_top_expenses limit)
  | Q_get_expenses_summary => returning VSummary get_expenses_summary
  | Q_expenses => returning VList expenses
  | Q_monthly_budget => returning VNum monthly_budget
  | Q_get_category_budget c => returning VNum (get_category_budget c)
  end.

(** The operations that change the planner. *)
Inductive Command : Type :=
| C_add_expense (today : datetime.date) (description : string) (amount : A)
    (category : PyObject) (expense_date : datetime.date)
| C_remove_expense (expense_id : option string)
| C_set_monthly_budget (budget : A)
| C_set_category_budget (category : PyObject) (budget : A).

Definition command (c : Command) : M Value :=
  match c with
  | C_add_expense today description amount category expense_date =>
      returning VStr (add_expense today description amount category expense_date)
  | C_remove_expense i => returning VBool (remove_expense i)
  | C_set_monthly_budget b => returning (fun _ => VNone) (set_monthly_budget b)
  | C_set_category_budget c b =>
      returning (fun _ => VNone) (set_category_budget c b)
  end.

(** The list and dict objects a returned value gives the caller. *)
Definition lists_of (v : Value) : list loc :=
  match v with VList r => [r] | _ => [] end.

Definition dicts_of (v : Value) : list loc :=
  match v with
  | VDict r => [r]
  | VSummary s => [category_budgets s]
  | _ => []
  end.

(** The caller mutating an object it holds: whatever the mutation
    (append, sort, clear, item assignment), the object gets a new
    content. *)
Definition caller_mutates_list (r : loc) (l' : list Expense) (w : World) : World :=
  with_lists (insert r l') w.

Definition caller_mutates_dict (r : loc) (d' : gmap Category A) (w : World) : World :=
  with_dicts (insert r d') w.

(** The worlds a program can be in that constructs one planner, calls
    its methods, constructs expenses of its own and mutates the objects
    it holds; the planner's two private objects are touched by the
    planner only. *)
Inductive reachable : World -> Prop :=
| reachable_new : reachable new_planner
| reachable_command c w : reachable w -> reachable (snd (command c w))
| reachable_query q w : reachable w -> reachable (snd (query q w))
| reachable_Expense today description amount category expense_date w :
    reachable w ->
    reachable (snd (Expense_init today description amount category expense_date w))
| reachable_list r l' w :
    reachable w -> r <> _expenses w -> reachable (caller_mutates_list r l' w)
| reachable_dict r d' w :
    reachable w -> r <> _category_budgets w ->
    reachable (caller_mutates_dict r d' w).

(** The world after [ExpensePlanner()] and the commands [cs], in order. *)
Definition after (cs : list Command) : World :=
  fold_left (fun w c => snd (command c w)) cs new_planner.

(** ** Vocabulary of the specification *)

(** An expense dated within [start, end], bounds included. *)
Definition in_range (s e : datetime.date) (x : Expense) : bool :=
  datetime.between s (date x) e.

Definition has_category (c : Category) (x : Expense) : bool :=
  bool_decide (category x = c).

(** Amounts added one after the other from [0.0], in list order. *)
Definition total (l : list A) : A := fold_left add l zero.

(** [sum(d.values())]. *)
Definition dict_values_sum (d : gmap Category A) : A :=
  map_fold (fun _ v acc => add acc v) (of_int 0) d.

(** The identifiers of the stored expenses. *)
Definition ids (l : list Expense) : list string := map id l.

(** All-whitespace strings (the empty string included). *)
Definition all_whitespace (s : string) : bool :=
  forallb isspace (list_ascii_of_string s).





(** The stored expenses of category [c] dated within [s, e]. *)
Definition matching (s e : datetime.date) (c : Category) (l : list Expense)
    : list Expense :=
  List.filter (fun x => in_range s e x && has_category c x) l.

(** One turn of the loop, on the content of [statistics]. *)
Definition statistics_step (s e : datetime.date) (d : gmap Category A)
    (x : Expense) : gmap Category A :=
  if in_range s e x
  then <[category x := add (default zero (d !! category x)) (amount x)]> d
  else d.

(** The sum of a list of counts of units, and of the values of a dict
    of them. *)
Definition units_sum (l : list Z) : Z := fold_right Z.add 0 l.

Definition dict_units_sum (d : gmap Category Z) : Z :=
  map_fold (fun _ k acc => acc + k) 0 d.

(** One turn of the loop of get_category_statistics, counted in units. *)
Definition units_step (units : Expense -> Z) (s e : datetime.date)
    (d : gmap Category Z) (x : Expense) : gmap Category Z :=
  if in_range s e x
  then <[category x := default 0 (d !! category x) + units x]> d
  else d.

(** [x] is worth [units x] units, and not less than none. *)
Definition in_units (emb : Z -> A) (units : Expense -> Z) (x : Expense) : Prop :=
  0 <= units x /\ amount x = emb (units x).

(** The budgets of a new planner: 0.0 for every category. *)
Definition initial_budgets : gmap Category A :=
  fold_left (fun d c => <[c := zero]> d) Category_members ∅.

(** The message of the first check of [Expense.__init__] that fails, in
    the order description, amount, category, date. *)
Definition validation_error (today : datetime.date) (description : string)
    (amount : A) (category : PyObject) (expense_date : datetime.date)
    : option string :=
  if all_whitespace description then Some "Description cannot be empty"
  else if num_le amount (of_int 0) then Some "Amount must be positive"
  else if negb (isinstance_Category category) then Some "Invalid category"
  else if datetime.gtb expense_date today then
    Some "Expense date cannot be in the future"
  else None.

(** The world after one more identifier was drawn. *)
Definition uuid_drawn (w : World) : World :=
  mkWorld (lists w) (dicts w) (S (uuid_calls w))
          (_expenses w) (_category_budgets w) (_monthly_budget w).

(** An identifier the generator has yielded so far. *)
Definition issued (w : World) (i : string) : Prop :=
  exists k, (k < uuid_calls w)%nat /\ i = uuid4 k.

(** What holds of the planner in every reachable world: its two objects
    exist, the stored identifiers were all drawn from the generator and
    differ from one another, and every category has a budget. *)
Definition invariant (w : World) : Prop :=
  exists l d m,
    planner_state w = Some (l, d, m)
    /\ Forall (issued w) (ids l)
    /\ NoDup (ids l)
    /\ (forall c, is_Some (d !! c)).

(** What a read operation may change: nothing the planner owns. *)
Definition preserved (w w' : World) : Prop :=
  planner_state w' = planner_state w
  /\ uuid_calls w' = uuid_calls w
  /\ _expenses w' = _expenses w
  /\ _category_budgets w' = _category_budgets w.

(** A computation that leaves the world as it is. *)
Definition readonly {R} (c : M R) : Prop := forall w, snd (c w) = w.

(** A computation that, run where the planner's objects exist, changes
    nothing the planner owns, and whose result satisfies [Q]. *)
Definition frames {R} (c : M R) (Q : R -> World -> Prop) : Prop :=
  forall w, is_Some (planner_state w) ->
    preserved w (snd (c w))
    /\ (forall r, fst (c w) = Return r -> Q r (snd (c w))).

(** The objects a value gives the caller are not the planner's own. *)
Definition apart (v : Value) (w : World) : Prop :=
  (forall r, In r (lists_of v) -> r <> _expenses w)
  /\ (forall r, In r (dicts_of v) -> r <> _category_budgets w).

(** An expense as [Expense.__init__] lets it through: an amount that is
    not [<= 0] and a description that is not empty and is its own
    [strip]. *)
Definition accepted (x : Expense) : Prop :=
  num_le (amount x) (of_int 0) = false
  /\ str_truthy (description x) = true
  /\ strip (description x) = description x.

(** No budget is [< 0]. *)
Definition budgets_not_negative (d : gmap Category A) (m : A) : Prop :=
  num_lt m (of_int 0) = false
  /\ (forall c b, d !! c = Some b -> num_lt b (of_int 0) = false).

(** [strip] on the characters of a string. *)
Definition trim (l : list ascii) : list ascii := rev (lstrip (rev (lstrip l))).

End Planner.

(** ** Concrete numbers, generator and planners *)

(** ** A generator that never repeats: "a", "aa", "aaa", ... *)

Definition uuid_seq (n : nat) : string :=
  string_of_list_ascii (repeat "a"%char (S n)).

#[export] Instance uuid_seq_generator : Generator := {| uuid4 := uuid_seq |}.

Definition jan15 : datetime.date := datetime.mkdate 2024 1 15.
Definition jan20 : datetime.date := datetime.mkdate 2024 1 20.
Definition dec20 : datetime.date := datetime.mkdate 2024 12 20.

Definition lunch : Expense := mkExpense "a" "Lunch" 25%Q FOOD jan15.
Definition bus : Expense := mkExpense "aa" "Bus" 5%Q TRANSPORT jan15.
Definition movie : Expense := mkExpense "aaa" "Movie" 25%Q FOOD jan20.

Definition sample_budgets : gmap Category Q := <[FOOD := 40%Q]> initial_budgets.

(** A planner holding three expenses, with a budget of 40 for FOOD and a
    monthly budget of 1500. *)
Definition sample : World :=
  mkWorld {[1%positive := [lunch; bus; movie]]} {[1%positive := sample_budgets]}
          3%nat 1%positive 1%positive 1500%Q.

(** The planner after [add_expense("Lunch", 25, FOOD, jan15)]. *)
Definition after_lunch : World :=
  snd (command (C_add_expense dec20 "Lunch" 25%Q (Member FOOD) jan15)
         new_planner).




Definition day : datetime.date := datetime.mkdate 2024 1 15.

(** The binary64 numbers that Python writes 0.1, 0.2 and 0.3. *)
Definition f0_1 : float := 0x1.999999999999ap-4%float.
Definition f0_2 : float := 0x1.999999999999ap-3%float.
Definition f0_3 : float := 0x1.3333333333333p-2%float.

(** The planner after add_expense("a", 0.1, FOOD, day),
    add_expense("b", 0.2, TRANSPORT, day) and
    add_expense("c", 0.3, TRANSPORT, day), called on 2024-12-20. *)
Definition float_planner : World :=
  snd (command (C_add_expense dec20 "c" f0_3 (Member TRANSPORT) day)
    (snd (command (C_add_expense dec20 "b" f0_2 (Member TRANSPORT) day)
      (snd (command (C_add_expense dec20 "a" f0_1 (Member FOOD) day)
         new_planner))))).

(** The scenarios of the test suite, with binary64 amounts, all dated
    and run on 2024-12-20. *)
Definition three_expenses : World :=
  after [C_add_expense dec20 "Lunch" 25%float (Member FOOD) dec20;
         C_add_expense dec20 "Bus" 5%float (Member TRANSPORT) dec20;
         C_add_expense dec20 "Movie" 15%float (Member ENTERTAINMENT) dec20].

Definition groceries : World :=
  after [C_set_category_budget (Member FOOD) 100%float;
         C_add_expense dec20 "Groceries" 80%float (Member FOOD) dec20].

Definition groceries_restaurant : World :=
  after [C_set_category_budget (Member FOOD) 100%float;
         C_add_expense dec20 "Groceries" 80%float (Member FOOD) dec20;
         C_add_expense dec20 "Restaurant" 30%float (Member FOOD) dec20].

Definition unset_budget : World :=
  after [C_set_category_budget (Member FOOD) 0%float;
         C_add_expense dec20 "Car" 1000000%float (Member FOOD) dec20].

Definition december : World :=
  after [C_set_monthly_budget 1500%float;
         C_add_expense dec20 "Rent" 300%float (Member UTILITIES) dec20;
         C_add_expense dec20 "Lunch" 25%float (Member FOOD) jan15].

Definition top_three : World :=
  after [C_add_expense dec20 "Small" 10%float (Member OTHER) dec20;
         C_add_expense dec20 "Large" 100%float (Member OTHER) dec20;
         C_add_expense dec20 "Medium" 50%float (Member OTHER) dec20].

(** The expenses [three_expenses] holds. *)
Definition whole_lunch : Expense := mkExpense "a" "Lunch" 25%float FOOD dec20.
Definition whole_bus : Expense := mkExpense "aa" "Bus" 5%float TRANSPORT dec20.
Definition whole_movie : Expense :=
  mkExpense "aaa" "Movie" 15%float ENTERTAINMENT dec20.

(** The whole numbers 0..n. *)
Definition upto (n : nat) : list Z := map Z.of_nat (seq 0 (S n)).

(** The whole number, from 0 to 100, that a binary64 amount is equal to
    (0 when there is none). *)
Definition whole_units (x : Expense (A := float)) : Z :=
  default 0
    (List.find (fun n => PrimFloat.eqb (float_of_int n) (amount x)) (upto 100)).



(** The content of the list or dict a call returns. *)
Definition returned_list {A} (out : Outcome loc * World (A := A))
    : option (list Expense) :=
  match fst out with Return r => lists (snd out) !! r | Raise _ => None end.

Definition returned_dict {A} (out : Outcome loc * World (A := A))
    : option (gmap Category A) :=
  match fst out with Return r => dicts (snd out) !! r | Raise _ => None end.

Section PlannerProofs.

Context {A : Type} {number : Number A} {generator : Generator}.

Implicit Types (w : World (A := A)) (l : list (Expense (A := A))).

(** * Proofs *)

(** ** Running computations *)

Lemma planner_state_Some w l d m :
  planner_state w = Some (l, d, m) ->
  lists w !! _expenses w = Some l
  /\ dicts w !! _category_budgets w = Some d
  /\ _monthly_budget w = m.
Proof.
  unfold planner_state.
  destruct (lists w !! _expenses w), (dicts w !! _category_budgets w);
    try discriminate.
  intros E. inversion E; subst. auto.
Qed.

Lemma bind_Return {R S} (c : M (A := A) R) (k : R -> M S) w r w' :
  c w = (Return r, w') -> (x ← c; k x) w = k r w'.
Proof. intros E. unfold mbind, M_bind, bind. now rewrite E. Qed.

Lemma bind_Raise {R S} (c : M (A := A) R) (k : R -> M S) w e w' :
  c w = (Raise e, w') -> (x ← c; k x) w = (Raise e, w').
Proof. intros E. unfold mbind, M_bind, bind. now rewrite E. Qed.

Lemma read_list_Some r w l :
  lists w !! r = Some l -> read_list r w = (Return l, w).
Proof. intros E. unfold read_list. now rewrite E. Qed.

Lemma read_dict_Some r w d :
  dicts w !! r = Some d -> read_dict r w = (Return d, w).
Proof. intros E. unfold read_dict. now rewrite E. Qed.

Lemma self_expenses_eq w : self_expenses w = (Return (_expenses w), w).
Proof. reflexivity. Qed.

Lemma self_category_budgets_eq w :
  self_category_budgets w = (Return (_category_budgets w), w).
Proof. reflexivity. Qed.

(** Reading the planner's own list. *)
Lemma read_expenses {S} (k : list Expense -> M S) w l d m :
  planner_state w = Some (l, d, m) ->
  (r ← self_expenses; l ← read_list r; k l) w = k l w.
Proof.
  intros (El & _ & _)%planner_state_Some.
  erewrite bind_Return by apply self_expenses_eq.
  erewrite bind_Return by (apply read_list_Some, El).
  reflexivity.
Qed.

(** ** Sums *)

Lemma fold_add_filter (P : Expense -> bool) l z :
  fold_left (fun t x => if P x then add t (amount x) else t) l z
  = fold_left add (map amount (List.filter P l)) z.
Proof.
  revert z. induction l as [|x l IH]; intros z; simpl; [reflexivity|].
  rewrite IH. now destruct (P x).
Qed.

Lemma filter_nil_iff {X} (P : X -> bool) (l : list X) :
  List.filter P l = [] <-> (forall x, In x l -> P x = false).
Proof.
  induction l as [|y l IH]; simpl.
  - split; [intros _ x []|reflexivity].
  - destruct (P y) eqn:E.
    + split; [discriminate|]. intros Hall.
      specialize (Hall y (or_introl eq_refl)). congruence.
    + rewrite IH. split.
      * intros Hall x [<-|Hx]; auto.
      * intros Hall x Hx. apply Hall. now right.
Qed.

(** ** get_total_expenses *)

Lemma get_total_expenses_eq w l d m s e :
  planner_state w = Some (l, d, m) ->
  get_total_expenses (Some s) (Some e) w
  = (if datetime.gtb s e
     then Raise (ValueError "Start date cannot be after end date")
     else Return (total (map amount (List.filter (in_range s e) l))), w).
Proof.
  intros Hst. unfold get_total_expenses.
  destruct (datetime.gtb s e); [reflexivity|].
  rewrite (read_expenses _ _ _ _ _ Hst).
  unfold mret, M_ret, ret, total. now rewrite fold_add_filter.
Qed.

(** C3: get_total_expenses fails on an absent bound ("Dates cannot be
    None") and on start > end ("Start date cannot be after end date");
    otherwise it returns the sum of the amounts of the stored expenses
    dated within [start, end], bounds included, which is 0.0 when no
    expense matches.  The world is the same afterwards. *)
Theorem get_total_expenses_spec w l d m :
  planner_state w = Some (l, d, m) ->
  (forall e, get_total_expenses None e w
             = (Raise (ValueError "Dates cannot be None"), w))
  /\ (forall s, get_total_expenses s None w
                = (Raise (ValueError "Dates cannot be None"), w))
  /\ (forall s e, datetime.gtb s e = true ->
        get_total_expenses (Some s) (Some e) w
        = (Raise (ValueError "Start date cannot be after end date"), w))
  /\ (forall s e, datetime.gtb s e = false ->
        get_total_expenses (Some s) (Some e) w
        = (Return (total (map amount (List.filter (in_range s e) l))), w))
  /\ (forall s e, datetime.gtb s e = false ->
        (forall x, In x l -> in_range s e x = false) ->
        get_total_expenses (Some s) (Some e) w = (Return zero, w)).
Proof.
  intros Hst. split; [|split; [|split; [|split]]].
  - reflexivity.
  - intros [s|]; reflexivity.
  - intros s e Hgt. rewrite (get_total_expenses_eq _ _ _ _ _ _ Hst).
    now rewrite Hgt.
  - intros s e Hgt. rewrite (get_total_expenses_eq _ _ _ _ _ _ Hst).
    now rewrite Hgt.
  - intros s e Hgt Hnone. rewrite (get_total_expenses_eq _ _ _ _ _ _ Hst).
    rewrite Hgt. apply filter_nil_iff in Hnone. now rewrite Hnone.
Qed.

(** ** get_remaining_monthly_budget *)

Lemma c_int_spec z :
  datetime.c_int z = true <-> datetime.INT_MIN <= z <= datetime.INT_MAX.
Proof.
  unfold datetime.c_int. rewrite andb_true_iff, !Z.leb_le. tauto.
Qed.

Lemma c_int_false z :
  datetime.c_int z = false <-> z < datetime.INT_MIN \/ datetime.INT_MAX < z.
Proof.
  unfold datetime.c_int. rewrite andb_false_iff, !Z.leb_gt. tauto.
Qed.

Lemma new_overflow y m d :
  datetime.c_int y = false -> datetime.new y m d = Raise OverflowError.
Proof. intros Hy. unfold datetime.new. now rewrite Hy. Qed.

Lemma new_cases y m d :
  datetime.c_int y = true -> datetime.c_int m = true -> datetime.c_int d = true ->
  datetime.new y m d = Return (datetime.mkdate y m d)
  \/ exists msg, datetime.new y m d = Raise (ValueError msg).
Proof.
  intros Hy Hm Hd. unfold datetime.new. rewrite Hy, Hm, Hd. cbn [andb negb].
  repeat (destruct (negb _); [right; eexists; reflexivity|]).
  now left.
Qed.

Lemma new_day_zero y m :
  datetime.c_int y = true -> datetime.c_int m = true ->
  raises_ValueError (datetime.new y m 0).
Proof.
  intros Hy Hm. unfold datetime.new. rewrite Hy, Hm. cbn [andb negb datetime.c_int].
  change (datetime.c_int 0) with true. cbn [andb negb].
  destruct (negb _); [exact I|]. destruct (negb _); [exact I|].
  simpl. exact I.
Qed.

Lemma new_valid y m d x :
  datetime.new y m d = Return x ->
  x = datetime.mkdate y m d /\ datetime.valid x = true.
Proof.
  unfold datetime.new, datetime.valid.
  destruct (negb (datetime.c_int y && datetime.c_int m && datetime.c_int d));
    [discriminate|].
  destruct ((datetime.MINYEAR <=? y) && (y <=? datetime.MAXYEAR)) eqn:Ey;
    [|discriminate].
  destruct ((1 <=? m) && (m <=? 12)) eqn:Em; [|discriminate].
  destruct ((1 <=? d) && (d <=? datetime.days_in_month y m)) eqn:Ed;
    [|discriminate].
  simpl. intros [= <-]. split; [reflexivity|]. simpl.
  apply andb_true_iff in Ey as [-> ->], Em as [-> ->], Ed as [-> ->].
  reflexivity.
Qed.

Lemma new_december y d :
  datetime.MINYEAR <= y <= datetime.MAXYEAR -> 1 <= d <= 31 ->
  datetime.new y 12 d = Return (datetime.mkdate y 12 d).
Proof.
  intros Hy Hd. unfold datetime.new.
  replace (datetime.c_int y && datetime.c_int 12 && datetime.c_int d) with true.
  2: { symmetry. rewrite !andb_true_iff, !c_int_spec.
       unfold datetime.INT_MIN, datetime.INT_MAX, datetime.MINYEAR,
         datetime.MAXYEAR in *. lia. }
  replace ((datetime.MINYEAR <=? y) && (y <=? datetime.MAXYEAR)) with true
    by (symmetry; apply andb_true_iff; split; apply Z.leb_le; lia).
  change (datetime.days_in_month y 12) with 31.
  replace ((1 <=? d) && (d <=? 31)) with true
    by (symmetry; apply andb_true_iff; split; apply Z.leb_le; lia).
  reflexivity.
Qed.

(** X17: in December of a year that [date] accepts, the method returns the
    monthly budget minus the expenses of that month. *)
Lemma get_remaining_monthly_budget_december w l d m year :
  planner_state w = Some (l, d, m) ->
  datetime.MINYEAR <= year <= datetime.MAXYEAR ->
  get_remaining_monthly_budget year 12 w
  = (Return
       (sub m
          (total
             (map amount
                (List.filter
                   (in_range (datetime.mkdate year 12 1) (datetime.mkdate year 12 31))
                   l)))), w).
Proof.
  intros Hst Hy. unfold get_remaining_monthly_budget.
  change (negb ((1 <=? 12) && (12 <=? 12))) with false.
  change (12 =? 12) with true. cbv iota.
  rewrite !new_december by lia.
  unfold mbind, M_bind, bind, lift.
  rewrite (get_total_expenses_eq _ _ _ _ _ _ Hst).
  replace (datetime.gtb _ _) with false.
  2: { unfold datetime.gtb, datetime.ltb. simpl.
       rewrite Z.ltb_irrefl, Z.eqb_refl. reflexivity. }
  destruct (planner_state_Some _ _ _ _ Hst) as (_ & _ & <-).
  reflexivity.
Qed.

(** C1, at the call [get_remaining_monthly_budget(2024, 1)]: whatever the
    planner holds, the call raises ValueError("day is out of range for
    month") instead of returning the budget that remains for January
    2024. *)
Theorem get_remaining_monthly_budget_january_2024 w :
  get_remaining_monthly_budget 2024 1 w
  = (Raise (ValueError "day is out of range for month"), w).
Proof. reflexivity. Qed.

(** ** get_category_statistics *)

Lemma with_dicts_insert_id r d0 w :
  dicts w !! r = Some d0 -> with_dicts (insert r d0) w = w.
Proof.
  intros E. destruct w as [ls ds n re rb mb]. unfold with_dicts. simpl in *.
  f_equal. now apply insert_id.
Qed.

Lemma with_dicts_insert_insert r d1 d2 w :
  with_dicts (insert r d2) (with_dicts (insert r d1) w)
  = with_dicts (insert r d2) w.
Proof. unfold with_dicts. simpl. f_equal. apply insert_insert_eq. Qed.

Lemma statistics_body r s e x w d0 :
  dicts w !! r = Some d0 ->
  (if datetime.between s (date x) e then
     v ← dict_get r (category x) zero;
     dict_setitem r (category x) (add v (amount x))
   else ret tt) w
  = (Return tt, with_dicts (insert r (statistics_step s e d0 x)) w).
Proof.
  intros E. unfold statistics_step, in_range.
  destruct (datetime.between s (date x) e).
  - erewrite bind_Return.
    2: { unfold dict_get. erewrite bind_Return by (apply read_dict_Some, E).
         reflexivity. }
    unfold dict_setitem. erewrite bind_Return by (apply read_dict_Some, E).
    unfold write_dict. now rewrite E.
  - unfold ret. now rewrite with_dicts_insert_id.
Qed.

Lemma statistics_loop r s e l : forall w d0,
  dicts w !! r = Some d0 ->
  for_each l
    (fun expense =>
       if datetime.between s (date expense) e then
         v ← dict_get r (category expense) zero;
         dict_setitem r (category expense) (add v (amount expense))
       else ret tt) w
  = (Return tt, with_dicts (insert r (fold_left (statistics_step s e) l d0)) w).
Proof.
  induction l as [|x l IH]; intros w d0 E; simpl.
  - now rewrite with_dicts_insert_id.
  - erewrite bind_Return by (apply statistics_body, E).
    rewrite (IH _ (statistics_step s e d0 x)) by apply lookup_insert_eq.
    now rewrite with_dicts_insert_insert.
Qed.

Lemma get_category_statistics_eq w l d m s e :
  planner_state w = Some (l, d, m) ->
  get_category_statistics (Some s) (Some e) w
  = (Return (fresh (dom (dicts w))),
     with_dicts (insert (fresh (dom (dicts w)))
                        (fold_left (statistics_step s e) l ∅)) w).
Proof.
  intros Hst. unfold get_category_statistics.
  erewrite bind_Return by reflexivity.
  set (r := fresh (dom (dicts w))).
  set (w1 := with_dicts (insert r ∅) w).
  assert (planner_state_lists : lists w1 !! _expenses w1 = Some l).
  { apply planner_state_Some in Hst as (El & _ & _). exact El. }
  erewrite bind_Return by apply self_expenses_eq.
  erewrite bind_Return by (apply read_list_Some, planner_state_lists).
  erewrite bind_Return.
  2: { apply (statistics_loop r s e l w1 ∅). apply lookup_insert_eq. }
  unfold w1. now rewrite with_dicts_insert_insert.
Qed.

Lemma statistics_lookup s e c l : forall d0,
  fold_left (statistics_step s e) l d0 !! c
  = match matching s e c l with
    | [] => d0 !! c
    | _ :: _ =>
        Some (fold_left add (map amount (matching s e c l))
                (default zero (d0 !! c)))
    end.
Proof.
  unfold matching.
  induction l as [|x l IH]; intros d0; simpl; [reflexivity|].
  rewrite IH. unfold statistics_step, has_category.
  destruct (in_range s e x); simpl; [|reflexivity].
  destruct (decide (category x = c)) as [->|Hne].
  - rewrite bool_decide_eq_true_2 by reflexivity. simpl.
    rewrite lookup_insert_eq. simpl.
    now destruct (List.filter _ l).
  - rewrite bool_decide_eq_false_2 by assumption.
    now rewrite lookup_insert_ne.
Qed.

Lemma matching_nonempty s e c l :
  matching s e c l <> []
  <-> exists x, In x l /\ in_range s e x = true /\ category x = c.
Proof.
  unfold matching. split.
  - intros Hne. destruct (List.filter _ l) as [|x r] eqn:E; [congruence|].
    assert (In x (List.filter (fun x => in_range s e x && has_category c x) l))
      as Hin by (rewrite E; now left).
    apply filter_In in Hin as [Hin Hp].
    apply andb_true_iff in Hp as [Hr Hc].
    exists x. repeat split; auto.
    unfold has_category in Hc. now apply bool_decide_eq_true in Hc.
  - intros (x & Hin & Hr & Hc) E.
    assert (In x (List.filter (fun x => in_range s e x && has_category c x) l)) as Hx.
    { apply filter_In. split; [assumption|]. rewrite Hr. simpl.
      unfold has_category. now apply bool_decide_eq_true. }
    rewrite E in Hx. destruct Hx.
Qed.

(** C2: for any two dates, in either order, get_category_statistics
    returns a new dict whose keys are exactly the categories of the
    stored expenses dated within [start, end], each with the sum of the
    amounts of those expenses; a category without such an expense is
    not a key. *)
Theorem get_category_statistics_spec w l d m s e :
  planner_state w = Some (l, d, m) ->
  exists r stats,
    get_category_statistics (Some s) (Some e) w
    = (Return r, with_dicts (insert r stats) w)
    /\ dicts w !! r = None
    /\ (forall c, is_Some (stats !! c)
                  <-> exists x, In x l /\ in_range s e x = true /\ category x = c)
    /\ (forall c, (exists x, In x l /\ in_range s e x = true /\ category x = c) ->
          stats !! c = Some (total (map amount (matching s e c l))))
    /\ (forall c, (forall x, In x l -> in_range s e x = true -> category x <> c) ->
          stats !! c = None).
Proof.
  intros Hst.
  exists (fresh (dom (dicts w))), (fold_left (statistics_step s e) l ∅).
  split; [now apply get_category_statistics_eq with (d := d) (m := m)|].
  split; [apply not_elem_of_dom, is_fresh|].
  assert (Hlook : forall c,
    fold_left (statistics_step s e) l ∅ !! c
    = match matching s e c l with
      | [] => None
      | _ :: _ => Some (total (map amount (matching s e c l)))
      end).
  { intros c. rewrite statistics_lookup. rewrite lookup_empty. reflexivity. }
  split; [|split].
  - intros c. rewrite Hlook, <- matching_nonempty.
    destruct (matching s e c l); split; intros Hx;
      try congruence; try (now eexists); now destruct Hx.
  - intros c Hex. apply matching_nonempty in Hex. rewrite Hlook.
    now destruct (matching s e c l).
  - intros c Hno. rewrite Hlook.
    destruct (matching s e c l) eqn:E; [reflexivity|].
    assert (matching s e c l <> []) as Hne by congruence.
    apply matching_nonempty in Hne as (x & Hin & Hr & Hc).
    now destruct (Hno x Hin Hr).
Qed.

(** ** Total and statistics *)

Section Units.

Context (emb : Z -> A) (bound : Z) (units : Expense (A := A) -> Z).
Hypothesis exact : ExactBelow A emb bound.

Lemma units_sum_nonneg l :
  Forall (in_units emb units) l -> 0 <= units_sum (map units l).
Proof.
  induction 1 as [|x l [Hx _] _ IH]; simpl; lia.
Qed.

Lemma total_units l :
  Forall (in_units emb units) l ->
  forall k, 0 <= k -> k + units_sum (map units l) <= bound ->
  fold_left add (map amount l) (emb k) = emb (k + units_sum (map units l)).
Proof.
  induction 1 as [|x l [Hx Ex] Hl IH]; intros k Hk Hb; simpl in *.
  - now rewrite Z.add_0_r.
  - pose proof (units_sum_nonneg l Hl) as Hs.
    rewrite Ex, (emb_add A emb bound exact) by lia.
    rewrite IH by lia. f_equal. lia.
Qed.

Lemma dict_units_sum_insert (d : gmap Category Z) c k :
  d !! c = None -> dict_units_sum (<[c := k]> d) = dict_units_sum d + k.
Proof.
  intros E. unfold dict_units_sum.
  rewrite map_fold_insert_L; [reflexivity|intros; lia|assumption].
Qed.

Lemma dict_units_sum_lookup (d : gmap Category Z) c k :
  d !! c = Some k -> dict_units_sum d = dict_units_sum (delete c d) + k.
Proof.
  intros E. unfold dict_units_sum.
  rewrite (map_fold_delete_L _ _ c k d); [reflexivity|intros; lia|assumption].
Qed.

Lemma dict_units_sum_step (d : gmap Category Z) c u :
  dict_units_sum (<[c := default 0 (d !! c) + u]> d) = dict_units_sum d + u.
Proof.
  destruct (d !! c) as [k|] eqn:E; simpl.
  - rewrite <- insert_delete_eq.
    rewrite dict_units_sum_insert by apply lookup_delete_eq.
    rewrite (dict_units_sum_lookup d c k E). lia.
  - now rewrite dict_units_sum_insert.
Qed.

Lemma dict_units_sum_nonneg (d : gmap Category Z) :
  map_Forall (fun _ k => 0 <= k) d -> 0 <= dict_units_sum d.
Proof.
  induction d as [|c k d E IH] using map_ind; intros Hd.
  - unfold dict_units_sum. now rewrite map_fold_empty.
  - rewrite dict_units_sum_insert by assumption.
    apply map_Forall_insert in Hd as [Hk Hd]; [|assumption].
    specialize (IH Hd). lia.
Qed.

Lemma dict_units_le (d : gmap Category Z) c k :
  map_Forall (fun _ k => 0 <= k) d -> d !! c = Some k -> k <= dict_units_sum d.
Proof.
  intros Hd E. rewrite (dict_units_sum_lookup d c k E).
  assert (0 <= dict_units_sum (delete c d)); [|lia].
  apply dict_units_sum_nonneg. intros c' k' [_ E']%lookup_delete_Some.
  exact (Hd c' k' E').
Qed.

(** The values of a dict of whole amounts add up to the whole number of
    units, whatever the order in which the dict yields them. *)
Lemma dict_values_sum_units (d : gmap Category Z) :
  map_Forall (fun _ k => 0 <= k) d -> dict_units_sum d <= bound ->
  dict_values_sum (emb <$> d) = emb (dict_units_sum d).
Proof.
  unfold dict_values_sum. rewrite map_fold_fmap.
  apply (map_fold_weak_ind
    (fun (r : A) (d : gmap Category Z) =>
       map_Forall (fun _ k => 0 <= k) d -> dict_units_sum d <= bound ->
       r = emb (dict_units_sum d))).
  - intros _ _. unfold dict_units_sum. rewrite map_fold_empty.
    symmetry. apply (emb_of_int A emb bound exact).
  - intros c k d0 r E IH Hd Hb.
    rewrite dict_units_sum_insert in Hb |- * by assumption.
    apply map_Forall_insert in Hd as [Hk Hd]; [|assumption].
    pose proof (dict_units_sum_nonneg d0 Hd) as Hs.
    simpl. rewrite IH by (assumption || lia).
    apply (emb_add A emb bound exact); lia.
Qed.

Lemma units_step_nonneg s e (d : gmap Category Z) x :
  (in_range s e x = true -> 0 <= units x) ->
  map_Forall (fun _ k => 0 <= k) d ->
  map_Forall (fun _ k => 0 <= k) (units_step units s e d x).
Proof.
  intros Hx Hd. unfold units_step.
  destruct (in_range s e x); [|assumption].
  apply map_Forall_insert_2; [|assumption].
  specialize (Hx eq_refl).
  destruct (d !! category x) as [k|] eqn:E; simpl; [|lia].
  specialize (Hd _ _ E). simpl in Hd. lia.
Qed.

(** The loop of get_category_statistics on whole amounts: the dict it
    builds holds the whole sums, and they add up to the units seen. *)
Lemma statistics_units s e l : forall d0 : gmap Category Z,
  Forall (in_units emb units) (List.filter (in_range s e) l) ->
  map_Forall (fun _ k => 0 <= k) d0 ->
  dict_units_sum d0 + units_sum (map units (List.filter (in_range s e) l))
    <= bound ->
  exists d1 : gmap Category Z,
    fold_left (statistics_step s e) l (emb <$> d0) = emb <$> d1
    /\ map_Forall (fun _ k => 0 <= k) d1
    /\ dict_units_sum d1
       = dict_units_sum d0 + units_sum (map units (List.filter (in_range s e) l)).
Proof.
  induction l as [|x l IH]; intros d0 Hl Hd Hb; simpl in *.
  - exists d0. split; [reflexivity|]. split; [assumption|lia].
  - destruct (in_range s e x) eqn:Hr.
    2: { assert (statistics_step s e (emb <$> d0) x = emb <$> d0) as ->
           by (unfold statistics_step; now rewrite Hr).
         now apply IH. }
    apply Forall_cons in Hl as [[Hx Ex] Hl]. simpl in Hb.
    pose proof (units_sum_nonneg _ Hl) as Hs.
    set (d' := <[category x := default 0 (d0 !! category x) + units x]> d0).
    assert (Hstep : statistics_step s e (emb <$> d0) x = emb <$> d').
    { unfold statistics_step, d'. rewrite Hr, lookup_fmap, fmap_insert.
      f_equal. destruct (d0 !! category x) as [k|] eqn:E; simpl.
      - pose proof (Hd _ _ E) as Hk. simpl in Hk.
        pose proof (dict_units_le d0 _ k Hd E) as Hle.
        rewrite Ex. apply (emb_add A emb bound exact); lia.
      - pose proof (dict_units_sum_nonneg d0 Hd) as H0.
        rewrite <- (emb_zero A emb bound exact), Ex.
        apply (emb_add A emb bound exact); lia. }
    assert (Hsum : dict_units_sum d' = dict_units_sum d0 + units x)
      by apply dict_units_sum_step.
    assert (Hd' : map_Forall (fun _ k => 0 <= k) d').
    { pose proof (units_step_nonneg s e d0 x (fun _ => Hx) Hd) as H.
      unfold units_step in H. now rewrite Hr in H. }
    assert (Hb' : dict_units_sum d'
                  + units_sum (map units (List.filter (in_range s e) l)) <= bound)
      by (rewrite Hsum; lia).
    destruct (IH d' Hl Hd' Hb') as (d1 & E1 & Hd1 & Hs1).
    exists d1. rewrite Hstep. split; [assumption|]. split; [assumption|].
    rewrite Hs1, Hsum. cbn [map units_sum fold_right]. unfold units_sum. lia.
Qed.

End Units.

Lemma gtb_irrefl day : datetime.gtb day day = false.
Proof.
  unfold datetime.gtb, datetime.ltb.
  now rewrite !Z.ltb_irrefl, !Z.eqb_refl.
Qed.

(** C4, for amounts that are whole numbers of one unit whose additions
    are exact up to the total of the day (floats that are whole numbers,
    for one): get_total_expenses(d, d) is the sum of the values of the
    dict get_category_statistics(d, d) returns. *)
Theorem total_equals_statistics_sum_exact (emb : Z -> A) (bound : Z)
    (exact : ExactBelow A emb bound) (units : Expense -> Z) w l d m day :
  planner_state w = Some (l, d, m) ->
  Forall (in_units emb units) (List.filter (in_range day day) l) ->
  units_sum (map units (List.filter (in_range day day) l)) <= bound ->
  exists t r stats w',
    get_total_expenses (Some day) (Some day) w = (Return t, w)
    /\ get_category_statistics (Some day) (Some day) w = (Return r, w')
    /\ dicts w' !! r = Some stats
    /\ t = dict_values_sum stats.
Proof.
  intros Hst Hl Hb.
  exists (total (map amount (List.filter (in_range day day) l))),
    (fresh (dom (dicts w))), (fold_left (statistics_step day day) l ∅).
  eexists. split; [|split; [|split]].
  - rewrite (get_total_expenses_eq _ _ _ _ _ _ Hst). now rewrite gtb_irrefl.
  - apply (get_category_statistics_eq _ _ _ _ _ _ Hst).
  - simpl. apply lookup_insert_eq.
  - destruct (statistics_units emb bound units exact day day l ∅ Hl)
      as (d1 & E1 & Hd1 & Hs1).
    { apply map_Forall_empty. }
    { unfold dict_units_sum at 1. rewrite map_fold_empty. lia. }
    unfold dict_units_sum at 2 in Hs1. rewrite map_fold_empty in Hs1.
    rewrite fmap_empty in E1. rewrite E1.
    rewrite (dict_values_sum_units emb bound exact d1 Hd1) by lia.
    unfold total. rewrite <- (emb_zero A emb bound exact).
    rewrite (total_units emb bound units exact _ Hl 0) by lia.
    now rewrite Hs1.
Qed.

(** ** The planner's objects and other objects *)

Lemma planner_state_dom w :
  is_Some (planner_state w) ->
  _expenses w ∈ dom (lists w) /\ _category_budgets w ∈ dom (dicts w).
Proof.
  intros [[[l d] m] Hst]. apply planner_state_Some in Hst as (El & Ed & _).
  split; apply elem_of_dom; eauto.
Qed.

Lemma planner_state_caller_list r l' w :
  r <> _expenses w ->
  planner_state (caller_mutates_list r l' w) = planner_state w.
Proof.
  intros Hne. unfold planner_state, caller_mutates_list. simpl.
  now rewrite lookup_insert_ne.
Qed.

Lemma planner_state_caller_dict r d' w :
  r <> _category_budgets w ->
  planner_state (caller_mutates_dict r d' w) = planner_state w.
Proof.
  intros Hne. unfold planner_state, caller_mutates_dict. simpl.
  now rewrite lookup_insert_ne.
Qed.

Lemma fresh_list_not_expenses w :
  is_Some (planner_state w) -> fresh (dom (lists w)) <> _expenses w.
Proof.
  intros [He _]%planner_state_dom Heq. rewrite <- Heq in He.
  now apply is_fresh in He.
Qed.

Lemma fresh_dict_not_budgets w :
  is_Some (planner_state w) -> fresh (dom (dicts w)) <> _category_budgets w.
Proof.
  intros [_ Hd]%planner_state_dom Heq. rewrite <- Heq in Hd.
  now apply is_fresh in Hd.
Qed.

Lemma planner_state_new_list w l0 :
  is_Some (planner_state w) ->
  planner_state (with_lists (insert (fresh (dom (lists w))) l0) w)
  = planner_state w.
Proof. intros Hw. now apply planner_state_caller_list, fresh_list_not_expenses. Qed.

Lemma planner_state_new_dict w d0 :
  is_Some (planner_state w) ->
  planner_state (with_dicts (insert (fresh (dom (dicts w))) d0) w)
  = planner_state w.
Proof. intros Hw. now apply planner_state_caller_dict, fresh_dict_not_budgets. Qed.

(** ** sorted(..., reverse=True) *)

Section Sorting.

Context {X : Type} (key : X -> A) (ordinary : A -> Prop).
Hypothesis order : OrderLaws A ordinary.










End Sorting.


(** ** get_top_expenses *)



(** ** get_expenses_by_category and is_category_budget_exceeded *)

Lemma get_expenses_by_category_eq w l d m c :
  planner_state w = Some (l, d, m) ->
  get_expenses_by_category (Member c) w
  = (Return (fresh (dom (lists w))),
     with_lists (insert (fresh (dom (lists w))) (List.filter (has_category c) l)) w).
Proof.
  intros Hst. unfold get_expenses_by_category.
  now rewrite (read_expenses _ _ _ _ _ Hst).
Qed.

Lemma dict_getitem_budget w l d m c budget :
  planner_state w = Some (l, d, m) -> d !! c = Some budget ->
  dict_getitem (_category_budgets w) c w = (Return budget, w).
Proof.
  intros (_ & Ed & _)%planner_state_Some Hc. unfold dict_getitem.
  erewrite bind_Return by (apply read_dict_Some, Ed).
  now rewrite Hc.
Qed.

(** C6: for a category whose stored budget is [budget],
    is_category_budget_exceeded returns False when [budget == 0], whatever
    was spent; otherwise it returns whether the sum of the amounts of all
    stored expenses of that category, of any date, is greater than
    [budget].  The planner is left as it was. *)
Theorem is_category_budget_exceeded_spec w l d m c budget :
  planner_state w = Some (l, d, m) ->
  d !! c = Some budget ->
  exists w',
    is_category_budget_exceeded (Member c) w
    = (Return
         (if num_eq budget (of_int 0) then false
          else num_gt (sum (map amount (List.filter (has_category c) l))) budget),
       w')
    /\ planner_state w' = Some (l, d, m).
Proof.
  intros Hst Hc. unfold is_category_budget_exceeded.
  erewrite bind_Return by apply self_category_budgets_eq.
  erewrite bind_Return by (eapply dict_getitem_budget; eassumption).
  destruct (num_eq budget (of_int 0)).
  - exists w. split; [reflexivity|assumption].
  - erewrite bind_Return by (eapply get_expenses_by_category_eq; eassumption).
    erewrite bind_Return by (apply read_list_Some; simpl; apply lookup_insert_eq).
    eexists. split; [reflexivity|].
    rewrite planner_state_new_list; [assumption|]. rewrite Hst. eauto.
Qed.

(** ** strip and whitespace *)

Lemma lstrip_nil_iff (l : list ascii) : lstrip l = [] <-> forallb isspace l = true.
Proof.
  induction l as [|c l IH]; simpl; [tauto|].
  destruct (isspace c); simpl; [exact IH|]. split; discriminate.
Qed.

Lemma lstrip_not_space (l : list ascii) c t : lstrip l = c :: t -> isspace c = false.
Proof.
  induction l as [|c' l IH]; simpl; [discriminate|].
  destruct (isspace c') eqn:E; [exact IH|]. intros [= <- _]. exact E.
Qed.

Lemma str_truthy_of_list (l : list ascii) :
  str_truthy (string_of_list_ascii l) = match l with [] => false | _ => true end.
Proof. now destruct l. Qed.

Lemma strip_truthy s : str_truthy (strip s) = negb (all_whitespace s).
Proof.
  unfold strip, all_whitespace. rewrite str_truthy_of_list.
  destruct (lstrip (list_ascii_of_string s)) as [|c t] eqn:E.
  - apply lstrip_nil_iff in E. now rewrite E.
  - assert (forallb isspace (list_ascii_of_string s) = false) as ->.
    { apply not_true_is_false. intros Hall%lstrip_nil_iff. congruence. }
    apply lstrip_not_space in E.
    destruct (lstrip (rev (c :: t))) as [|c' t'] eqn:E'.
    + apply lstrip_nil_iff in E'. rewrite forallb_forall in E'.
      rewrite (E' c) in E; [discriminate|]. apply in_rev. rewrite rev_involutive.
      now left.
    + assert (rev (c' :: t') <> []) as Hne.
      { intros Hr. apply (f_equal (@length ascii)) in Hr.
        rewrite length_rev in Hr. discriminate. }
      now destruct (rev (c' :: t')).
Qed.

Lemma description_check s :
  negb (str_truthy s) || negb (str_truthy (strip s)) = all_whitespace s.
Proof.
  rewrite strip_truthy, negb_involutive.
  destruct s; [reflexivity|]. reflexivity.
Qed.

(** ** Expense.__init__ and add_expense *)

Lemma Expense_init_error w today description amount category expense_date msg :
  validation_error today description amount category expense_date = Some msg ->
  Expense_init today description amount category expense_date w
  = (Raise (ValueError msg), w).
Proof.
  unfold validation_error, Expense_init. rewrite description_check.
  destruct (all_whitespace description); [now intros [= <-]|].
  destruct (num_le amount (of_int 0)); [now intros [= <-]|].
  destruct category as [c| |]; simpl; try (now intros [= <-]).
  destruct (datetime.gtb expense_date today); [now intros [= <-]|discriminate].
Qed.

Lemma Expense_init_ok w today description amount category expense_date :
  validation_error today description amount category expense_date = None ->
  exists c,
    category = Member c
    /\ Expense_init today description amount category expense_date w
       = (Return (mkExpense (uuid4 (uuid_calls w)) (strip description)
                    amount c expense_date),
          uuid_drawn w).
Proof.
  unfold validation_error, Expense_init. rewrite description_check.
  destruct (all_whitespace description); [discriminate|].
  destruct (num_le amount (of_int 0)); [discriminate|].
  destruct category as [c| |]; simpl; try discriminate.
  destruct (datetime.gtb expense_date today); [discriminate|].
  intros _. exists c. split; reflexivity.
Qed.

Lemma add_expense_error w today description amount category expense_date msg :
  validation_error today description amount category expense_date = Some msg ->
  add_expense today description amount category expense_date w
  = (Raise (ValueError msg), w).
Proof.
  intros Hv. unfold add_expense.
  now erewrite bind_Raise by (apply Expense_init_error, Hv).
Qed.

Lemma add_expense_ok w l d m today description amount category expense_date :
  planner_state w = Some (l, d, m) ->
  validation_error today description amount category expense_date = None ->
  exists c w',
    category = Member c
    /\ add_expense today description amount category expense_date w
       = (Return (uuid4 (uuid_calls w)), w')
    /\ planner_state w'
       = Some ((l ++ [mkExpense (uuid4 (uuid_calls w)) (strip description)
                        amount c expense_date])%list, d, m)
    /\ uuid_calls w' = S (uuid_calls w).
Proof.
  intros Hst Hv.
  destruct (Expense_init_ok w _ _ _ _ _ Hv) as (c & -> & Hinit).
  apply planner_state_Some in Hst as (El & Ed & Em).
  exists c. eexists. split; [reflexivity|].
  unfold add_expense. erewrite bind_Return by exact Hinit.
  erewrite bind_Return by apply self_expenses_eq.
  unfold list_append.
  erewrite bind_Return.
  2: { erewrite bind_Return by (apply read_list_Some; simpl; exact El).
       unfold write_list. simpl. rewrite El. reflexivity. }
  split; [reflexivity|]. split; [|reflexivity].
  unfold planner_state. simpl. rewrite lookup_insert_eq, Ed, Em. reflexivity.
Qed.

(** C8: add_expense raises if and only if the description is empty or
    all whitespace, or the amount is <= 0, or the category is not a
    Category member, or the date is after today; what it raises is a
    ValueError whose message names the first of these that holds, the
    four messages differ, and the world, the planner's list with it, is
    what it was before the call. *)
Theorem add_expense_raises_iff w l d m today description amount category expense_date :
  planner_state w = Some (l, d, m) ->
  let out := add_expense today description amount category expense_date w in
  (raises (fst out)
   <-> all_whitespace description = true
       \/ num_le amount (of_int 0) = true
       \/ isinstance_Category category = false
       \/ datetime.gtb expense_date today = true)
  /\ (raises (fst out) -> raises_ValueError (fst out) /\ snd out = w)
  /\ (all_whitespace description = true ->
      fst out = Raise (ValueError "Description cannot be empty"))
  /\ (all_whitespace description = false ->
      num_le amount (of_int 0) = true ->
      fst out = Raise (ValueError "Amount must be positive"))
  /\ (all_whitespace description = false ->
      num_le amount (of_int 0) = false ->
      isinstance_Category category = false ->
      fst out = Raise (ValueError "Invalid category"))
  /\ (all_whitespace description = false ->
      num_le amount (of_int 0) = false ->
      isinstance_Category category = true ->
      datetime.gtb expense_date today = true ->
      fst out = Raise (ValueError "Expense date cannot be in the future"))
  /\ NoDup ["Description cannot be empty"; "Amount must be positive";
            "Invalid category"; "Expense date cannot be in the future"].
Proof.
  intros Hst out.
  destruct (validation_error today description amount category expense_date)
    as [msg|] eqn:Hv.
  - pose proof (add_expense_error w _ _ _ _ _ _ Hv) as Hrun.
    fold out in Hrun. rewrite Hrun. simpl. unfold validation_error in Hv.
    split; [split; [intros _|exact (fun _ => I)]|].
    { destruct (all_whitespace description); [now left|].
      destruct (num_le amount (of_int 0)); [now right; left|].
      destruct (isinstance_Category category); [|now right; right; left].
      destruct (datetime.gtb expense_date today); [|discriminate].
      now right; right; right. }
    split; [auto|].
    split; [intros E; rewrite E in Hv; now inversion Hv|].
    split; [intros E1 E2; rewrite E1, E2 in Hv; now inversion Hv|].
    split; [intros E1 E2 E3; rewrite E1, E2, E3 in Hv; now inversion Hv|].
    split; [intros E1 E2 E3 E4; rewrite E1, E2, E3, E4 in Hv; now inversion Hv|].
    apply NoDup_ListNoDup. repeat constructor; simpl; intuition discriminate.
  - destruct (add_expense_ok w _ _ _ _ _ _ _ _ Hst Hv) as (c & w' & -> & Hrun & _).
    fold out in Hrun. rewrite Hrun. simpl. unfold validation_error in Hv.
    destruct (all_whitespace description); [discriminate|].
    destruct (num_le amount (of_int 0)); [discriminate|].
    simpl in Hv. destruct (datetime.gtb expense_date today); [discriminate|].
    split; [split; [intros []|intros [|[|[|]]]; discriminate]|].
    split; [intros []|].
    repeat (split; [intros; discriminate|]).
    apply NoDup_ListNoDup. repeat constructor; simpl; intuition discriminate.
Qed.

(** ** Read operations leave the planner alone *)

Lemma preserved_refl w : preserved w w.
Proof. now repeat split. Qed.

Lemma preserved_trans w1 w2 w3 :
  preserved w1 w2 -> preserved w2 w3 -> preserved w1 w3.
Proof.
  intros (a1 & a2 & a3 & a4) (b1 & b2 & b3 & b4).
  repeat split; congruence.
Qed.

Lemma readonly_bind {R S} (c : M (A := A) R) (k : R -> M S) :
  readonly c -> (forall r, readonly (k r)) -> readonly (x ← c; k x).
Proof.
  intros Hc Hk w. unfold mbind, M_bind, bind.
  specialize (Hc w). destruct (c w) as [[r|e] w1]; simpl in Hc; subst.
  - apply Hk.
  - reflexivity.
Qed.

Lemma readonly_ret {R} (r : R) : readonly (ret (A := A) r).
Proof. now intros w. Qed.

Lemma readonly_raise {R} e : readonly (raise (A := A) (R := R) e).
Proof. now intros w. Qed.

Lemma readonly_lift {R} (o : Outcome R) : readonly (lift (A := A) o).
Proof. now intros w. Qed.

Lemma readonly_self_expenses : readonly (self_expenses (A := A)).
Proof. now intros w. Qed.

Lemma readonly_self_category_budgets : readonly (self_category_budgets (A := A)).
Proof. now intros w. Qed.

Lemma readonly_self_monthly_budget : readonly (self_monthly_budget (A := A)).
Proof. now intros w. Qed.

Lemma readonly_read_list r : readonly (read_list (A := A) r).
Proof. intros w. unfold read_list. now destruct (lists w !! r). Qed.

Lemma readonly_read_dict r : readonly (read_dict (A := A) r).
Proof. intros w. unfold read_dict. now destruct (dicts w !! r). Qed.

Lemma readonly_dict_getitem r k : readonly (dict_getitem (A := A) r k).
Proof.
  apply readonly_bind; [apply readonly_read_dict|].
  intros d. destruct (d !! k); [apply readonly_ret|apply readonly_raise].
Qed.

Create HintDb readonly.
#[local] Hint Resolve readonly_ret readonly_raise readonly_lift
  readonly_self_expenses readonly_self_category_budgets
  readonly_self_monthly_budget readonly_read_list readonly_read_dict
  readonly_dict_getitem : readonly.

Ltac readonly_steps :=
  repeat (first
    [ apply readonly_bind; [|intros ?]
    | match goal with
      | |- readonly (if ?b then _ else _) => destruct b
      | |- readonly (match ?x with _ => _ end) => destruct x
      end
    | solve [auto with readonly] ]).

Lemma readonly_get_total_expenses s e : readonly (get_total_expenses s e).
Proof. unfold get_total_expenses. readonly_steps. Qed.

Lemma readonly_get_remaining_monthly_budget y m :
  readonly (get_remaining_monthly_budget y m).
Proof.
  unfold get_remaining_monthly_budget.
  destruct (negb _); [apply readonly_raise|].
  apply readonly_bind; [apply readonly_lift|intros sd].
  apply readonly_bind.
  { destruct (m =? 12); readonly_steps. }
  intros ed. apply readonly_bind; [apply readonly_get_total_expenses|].
  intros t. readonly_steps.
Qed.

Lemma readonly_get_category_budget c : readonly (get_category_budget (A := A) c).
Proof. unfold get_category_budget. readonly_steps. Qed.

Lemma frames_readonly {R} (c : M (A := A) R) (Q : R -> World -> Prop) :
  readonly c -> (forall r w, Q r w) -> frames c Q.
Proof.
  intros Hc HQ w _. rewrite Hc. split; [apply preserved_refl|auto].
Qed.

Lemma frames_weaken {R} (c : M (A := A) R) (Q : R -> World -> Prop) :
  frames c Q -> frames c (fun _ _ => True).
Proof. intros Hc w Hw. destruct (Hc w Hw). split; auto. Qed.

Lemma frames_bind {R S} (c : M (A := A) R) (k : R -> M S) (Q : S -> World -> Prop) :
  frames c (fun _ _ => True) -> (forall r, frames (k r) Q) ->
  frames (x ← c; k x) Q.
Proof.
  intros Hc Hk w Hw. unfold mbind, M_bind, bind.
  destruct (Hc w Hw) as [Hp _].
  destruct (c w) as [[r|e] w1]; simpl in *.
  - assert (is_Some (planner_state w1)) as Hw1
      by (destruct Hp as [-> _]; exact Hw).
    destruct (Hk r w1 Hw1) as [Hp1 HQ].
    split; [eapply preserved_trans; eassumption|exact HQ].
  - split; [assumption|discriminate].
Qed.

Lemma frames_raise {R} e (Q : R -> World (A := A) -> Prop) : frames (raise e) Q.
Proof. intros w _. split; [apply preserved_refl|discriminate]. Qed.

Lemma frames_returning {R} (f : R -> Value) (c : M (A := A) R) (Q : Value -> World -> Prop) :
  frames c (fun r w => Q (f r) w) -> frames (returning f c) Q.
Proof.
  intros Hc w Hw. unfold returning, mbind, M_bind, bind.
  destruct (Hc w Hw) as [Hp HQ].
  destruct (c w) as [[r|e] w1]; simpl in *.
  - split; [assumption|]. intros v [= <-]. now apply HQ.
  - split; [assumption|discriminate].
Qed.

Lemma frames_new_list l :
  frames (new_list l) (fun r w => r <> _expenses w).
Proof.
  intros w Hw. unfold new_list. simpl. split.
  - repeat split. now apply planner_state_new_list.
  - intros r [= <-]. now apply fresh_list_not_expenses.
Qed.

Lemma frames_new_dict (d : gmap Category A) :
  frames (new_dict d) (fun r w => r <> _category_budgets w).
Proof.
  intros w Hw. unfold new_dict. simpl. split.
  - repeat split. now apply planner_state_new_dict.
  - intros r [= <-]. now apply fresh_dict_not_budgets.
Qed.

Lemma frames_get_expenses_by_category c :
  frames (get_expenses_by_category (A := A) c) (fun r w => r <> _expenses w).
Proof.
  unfold get_expenses_by_category. destruct c; try apply frames_raise.
  apply frames_bind; [now apply frames_readonly; auto with readonly|intros r].
  apply frames_bind; [now apply frames_readonly; auto with readonly|intros l].
  apply frames_new_list.
Qed.

Lemma frames_expenses : frames (expenses (A := A)) (fun r w => r <> _expenses w).
Proof.
  unfold expenses.
  apply frames_bind; [now apply frames_readonly; auto with readonly|intros r].
  apply frames_bind; [now apply frames_readonly; auto with readonly|intros l].
  apply frames_new_list.
Qed.

Lemma frames_get_top_expenses limit :
  frames (get_top_expenses limit) (fun r w => r <> _expenses w).
Proof.
  unfold get_top_expenses. destruct (limit <=? 0); [apply frames_raise|].
  apply frames_bind; [now apply frames_readonly; auto with readonly|intros r].
  apply frames_bind; [now apply frames_readonly; auto with readonly|intros l].
  apply frames_bind; [eapply frames_weaken, frames_new_list|intros r1].
  apply frames_bind; [now apply frames_readonly; auto with readonly|intros s].
  apply frames_new_list.
Qed.

Lemma frames_is_category_budget_exceeded c :
  frames (is_category_budget_exceeded c) (fun _ _ => True).
Proof.
  unfold is_category_budget_exceeded. destruct c; try apply frames_raise.
  apply frames_bind; [now apply frames_readonly; auto with readonly|intros rb].
  apply frames_bind; [now apply frames_readonly; auto with readonly|intros b].
  destruct (num_eq b (of_int 0)); [now apply frames_readonly; auto with readonly|].
  apply frames_bind;
    [eapply frames_weaken, frames_get_expenses_by_category|intros r].
  apply frames_bind; [now apply frames_readonly; auto with readonly|intros l].
  now apply frames_readonly; auto with readonly.
Qed.

Lemma frames_get_category_statistics s e :
  frames (get_category_statistics s e) (fun r w => r <> _category_budgets w).
Proof.
  destruct s as [s|], e as [e|]; try apply frames_raise.
  intros w Hw. destruct Hw as [[[l d] m] Hst].
  rewrite (get_category_statistics_eq _ _ _ _ _ _ Hst). simpl. split.
  - repeat split. apply planner_state_new_dict. rewrite Hst. eauto.
  - intros r [= <-]. apply fresh_dict_not_budgets. rewrite Hst. eauto.
Qed.

Lemma frames_get_expenses_summary :
  frames get_expenses_summary (fun s w => category_budgets s <> _category_budgets w).
Proof.
  unfold get_expenses_summary.
  apply frames_bind; [now apply frames_readonly; auto with readonly|intros r].
  apply frames_bind; [now apply frames_readonly; auto with readonly|intros l].
  apply frames_bind; [now apply frames_readonly; auto with readonly|intros mb].
  apply frames_bind; [now apply frames_readonly; auto with readonly|intros rb].
  apply frames_bind; [now apply frames_readonly; auto with readonly|intros d].
  intros w Hw. destruct (frames_new_dict d w Hw) as [Hp Hr].
  unfold mbind, M_bind, bind. unfold new_dict in *. simpl in *.
  split; [assumption|]. intros s [= <-]. simpl. now apply Hr.
Qed.

Lemma frames_post {R} (c : M (A := A) R) (Q Q' : R -> World -> Prop) :
  frames c Q -> (forall r w, Q r w -> Q' r w) -> frames c Q'.
Proof.
  intros Hc HQ w Hw. destruct (Hc w Hw) as [Hp Hr]. split; auto.
Qed.

Lemma apart_VList r w : r <> _expenses w -> apart (VList r) w.
Proof. intros Hr. split; simpl; intros r' []; now subst. Qed.

Lemma apart_VDict r w : r <> _category_budgets w -> apart (VDict r) w.
Proof. intros Hr. split; simpl; intros r' []; now subst. Qed.

Lemma apart_VSummary s w :
  category_budgets s <> _category_budgets w -> apart (VSummary s) w.
Proof. intros Hr. split; simpl; intros r' []; now subst. Qed.

Lemma apart_VNum a w : apart (VNum a) w.
Proof. split; intros r []. Qed.

Lemma apart_VBool b w : apart (VBool b) w.
Proof. split; intros r []. Qed.

(** Every read operation preserves the planner and hands out objects
    that are not the planner's. *)
Lemma frames_query q : frames (query q) apart.
Proof.
  destruct q; simpl; apply frames_returning.
  - apply frames_readonly; [apply readonly_get_total_expenses|apply apart_VNum].
  - eapply frames_post; [apply frames_get_expenses_by_category|apply apart_VList].
  - apply frames_readonly;
      [apply readonly_get_remaining_monthly_budget|apply apart_VNum].
  - eapply frames_post; [apply frames_is_category_budget_exceeded|].
    intros; apply apart_VBool.
  - eapply frames_post; [apply frames_get_category_statistics|apply apart_VDict].
  - eapply frames_post; [apply frames_get_top_expenses|apply apart_VList].
  - eapply frames_post; [apply frames_get_expenses_summary|apply apart_VSummary].
  - eapply frames_post; [apply frames_expenses|apply apart_VList].
  - apply frames_readonly; [apply readonly_self_monthly_budget|apply apart_VNum].
  - apply frames_readonly; [apply readonly_get_category_budget|apply apart_VNum].
Qed.

(** C10: a read operation, whether it returns or raises, leaves the
    planner's expense list (order included), budget dict and monthly
    budget as they were; the lists and dicts it returns are objects of
    their own, so that whatever the caller then does to them, the
    planner's state is still the same. *)
Theorem queries_preserve_planner q w :
  is_Some (planner_state w) ->
  let out := query q w in
  planner_state (snd out) = planner_state w
  /\ (forall v, fst out = Return v ->
       (forall r l', In r (lists_of v) ->
          planner_state (caller_mutates_list r l' (snd out)) = planner_state w)
       /\ (forall r d', In r (dicts_of v) ->
            planner_state (caller_mutates_dict r d' (snd out)) = planner_state w)).
Proof.
  intros Hw out. destruct (frames_query q w Hw) as [(Hst & _) Hv].
  fold out in Hst, Hv. split; [assumption|].
  intros v Hret. destruct (Hv v Hret) as [Hl Hd]. split.
  - intros r l' Hr. rewrite planner_state_caller_list; auto.
  - intros r d' Hr. rewrite planner_state_caller_dict; auto.
Qed.

(** ** remove_expense, set_monthly_budget, set_category_budget *)

Lemma remove_expense_eq w l d m i :
  planner_state w = Some (l, d, m) -> str_truthy i = true ->
  exists w',
    remove_expense (Some i) w
    = (Return (length (List.filter (fun exp => negb (String.eqb (id exp) i)) l)
               <? length l)%nat, w')
    /\ planner_state w'
       = Some (List.filter (fun exp => negb (String.eqb (id exp) i)) l, d, m)
    /\ uuid_calls w' = uuid_calls w.
Proof.
  intros Hst Hi. unfold remove_expense. rewrite Hi. cbn [negb].
  rewrite (read_expenses _ _ _ _ _ Hst).
  apply planner_state_Some in Hst as (El & Ed & Em).
  erewrite bind_Return by reflexivity.
  erewrite bind_Return by reflexivity.
  erewrite bind_Return by (apply read_list_Some; simpl; apply lookup_insert_eq).
  eexists. split; [reflexivity|]. split; [|reflexivity].
  unfold planner_state. simpl. now rewrite lookup_insert_eq, Ed, Em.
Qed.

Lemma filter_absent_id i l :
  ~ In i (ids l) ->
  List.filter (fun exp => negb (String.eqb (id exp) i)) l = l.
Proof.
  induction l as [|x l IH]; simpl; [reflexivity|]. intros Hn.
  destruct (String.eqb_spec (id x) i) as [E|E]; simpl.
  - destruct Hn. now left.
  - rewrite IH; [reflexivity|]. intros Hin. apply Hn. now right.
Qed.

Lemma filter_present_id i l :
  NoDup (ids l) -> In i (ids l) ->
  exists l1 x l2,
    l = (l1 ++ x :: l2)%list /\ id x = i
    /\ List.filter (fun exp => negb (String.eqb (id exp) i)) l = (l1 ++ l2)%list
    /\ ~ In i (ids (l1 ++ l2)%list).
Proof.
  induction l as [|x l IH]; simpl; [intros _ []|].
  intros Hnd Hin. apply NoDup_cons in Hnd as [Hx Hnd].
  rewrite list_elem_of_In in Hx.
  destruct (String.eqb_spec (id x) i) as [E|E]; simpl.
  - exists [], x, l. subst i. rewrite filter_absent_id by assumption.
    repeat split; assumption.
  - destruct Hin as [Hin|Hin]; [contradiction|].
    destruct (IH Hnd Hin) as (l1 & y & l2 & -> & Hy & Hf & Hno).
    exists (x :: l1), y, l2. rewrite Hf. repeat split; auto.
    simpl. intros [Hx'|Hin']; auto.
Qed.

Lemma set_monthly_budget_state w l d m budget :
  planner_state w = Some (l, d, m) ->
  exists m',
    planner_state (snd (set_monthly_budget budget w)) = Some (l, d, m')
    /\ uuid_calls (snd (set_monthly_budget budget w)) = uuid_calls w.
Proof.
  intros Hst. unfold set_monthly_budget.
  destruct (num_lt budget (of_int 0)); simpl; [eauto|].
  apply planner_state_Some in Hst as (El & Ed & Em).
  exists budget. unfold planner_state. simpl. now rewrite El, Ed.
Qed.

Lemma set_category_budget_state w l d m category budget :
  planner_state w = Some (l, d, m) ->
  exists d',
    planner_state (snd (set_category_budget category budget w)) = Some (l, d', m)
    /\ (forall c, is_Some (d !! c) -> is_Some (d' !! c))
    /\ uuid_calls (snd (set_category_budget category budget w)) = uuid_calls w.
Proof.
  intros Hst. unfold set_category_budget.
  destruct category as [c| |]; simpl; eauto.
  destruct (num_lt budget (of_int 0)); simpl; [eauto|].
  pose proof Hst as (El & Ed & Em)%planner_state_Some.
  erewrite bind_Return by apply self_category_budgets_eq.
  unfold dict_setitem. erewrite bind_Return by (apply read_dict_Some, Ed).
  unfold write_dict. rewrite Ed. simpl.
  exists (<[c := budget]> d). split; [|split; [|reflexivity]].
  - unfold planner_state. simpl. now rewrite lookup_insert_eq, El, Em.
  - intros c' Hc'. destruct (decide (c = c')) as [->|Hne].
    + rewrite lookup_insert_eq. eauto.
    + now rewrite lookup_insert_ne.
Qed.

(** ** The invariant of reachable worlds *)

Section Identifiers.

Hypothesis uuid4_inj : forall j k, uuid4 j = uuid4 k -> j = k.

Lemma issued_mono w w' i :
  (uuid_calls w <= uuid_calls w')%nat -> issued w i -> issued w' i.
Proof. intros Hle (k & Hk & ->). exists k. split; [lia|reflexivity]. Qed.

Lemma invariant_preserved w w' :
  preserved w w' -> invariant w -> invariant w'.
Proof.
  intros (Hst & Hn & _ & _) (l & d & m & Hw & Hiss & Hnd & Hd).
  exists l, d, m. rewrite Hst. split; [assumption|].
  split; [|split; assumption].
  eapply Forall_impl; [exact Hiss|]. intros i. apply issued_mono. lia.
Qed.

Lemma fresh_id_not_stored w l :
  Forall (issued w) (ids l) -> ~ In (uuid4 (uuid_calls w)) (ids l).
Proof.
  intros Hiss Hin. rewrite List.Forall_forall in Hiss.
  destruct (Hiss _ Hin) as (k & Hk & E). apply uuid4_inj in E. lia.
Qed.

Lemma invariant_new_planner : invariant new_planner.
Proof.
  exists [], initial_budgets, zero.
  split; [vm_compute; reflexivity|].
  split; [constructor|]. split; [constructor|].
  intros c. destruct c; vm_compute; eauto.
Qed.

Lemma invariant_command c w : invariant w -> invariant (snd (command c w)).
Proof.
  intros (l & d & m & Hst & Hiss & Hnd & Hd).
  destruct c as [today description amount category expense_date|i|b|c b];
    unfold command, returning, mbind, M_bind, bind.
  - destruct (validation_error today description amount category expense_date)
      as [msg|] eqn:Hv.
    + rewrite (add_expense_error w _ _ _ _ _ _ Hv). simpl.
      exists l, d, m. auto.
    + destruct (add_expense_ok w _ _ _ _ _ _ _ _ Hst Hv)
        as (c & w' & -> & -> & Hst' & Hn).
      simpl. eexists _, d, m. split; [exact Hst'|].
      unfold ids in *. rewrite map_app. simpl.
      split; [|split; [|assumption]].
      * apply Forall_app. split.
        -- eapply Forall_impl; [exact Hiss|].
           intros i. apply issued_mono. lia.
        -- constructor; [|constructor]. exists (uuid_calls w). split; [lia|reflexivity].
      * apply NoDup_app. split; [assumption|].
        split; [|apply NoDup_singleton].
        intros i Hi [<-|[]]%list_elem_of_In. rewrite list_elem_of_In in Hi.
        now apply (fresh_id_not_stored w l).
  - destruct i as [i|]; [|exists l, d, m; auto].
    destruct (str_truthy i) eqn:Hi.
    2: { unfold remove_expense. rewrite Hi. exists l, d, m; auto. }
    destruct (remove_expense_eq w l d m i Hst Hi) as (w' & Hrun & Hst' & Hn).
    rewrite Hrun. simpl. eexists _, d, m. split; [exact Hst'|].
    split; [|split; [|assumption]].
    + unfold ids. rewrite List.Forall_forall in *. intros j Hj.
      apply in_map_iff in Hj as (x & <- & Hx%filter_In).
      eapply issued_mono; [|apply Hiss, in_map, Hx]. lia.
    + unfold ids in *. clear -Hnd. induction l as [|x l IH]; simpl; [constructor|].
      apply NoDup_cons in Hnd as [Hx Hnd].
      destruct (negb _); simpl; [|auto].
      apply NoDup_cons. split; [|auto].
      rewrite list_elem_of_In in *. intros Hin. apply Hx.
      apply in_map_iff in Hin as (y & E & Hy%filter_In).
      apply in_map_iff. exists y. tauto.
  - destruct (set_monthly_budget_state w l d m b Hst) as (m' & Hst' & Hn).
    destruct (set_monthly_budget b w) as [[[]|e] w']; simpl in *;
      exists l, d, m'; (split; [assumption|]);
      (split; [|split; assumption]);
      (eapply Forall_impl; [exact Hiss|]); intros i; apply issued_mono; lia.
  - destruct (set_category_budget_state w l d m c b Hst) as (d' & Hst' & Hd' & Hn).
    destruct (set_category_budget c b w) as [[[]|e] w']; simpl in *;
      exists l, d', m; (split; [assumption|]);
      (split; [|split; [assumption|auto]]);
      (eapply Forall_impl; [exact Hiss|]); intros i; apply issued_mono; lia.
Qed.

Lemma invariant_Expense w today description amount category expense_date :
  invariant w ->
  invariant (snd (Expense_init today description amount category expense_date w)).
Proof.
  intros Hinv.
  destruct (validation_error today description amount category expense_date)
    as [msg|] eqn:Hv.
  - now rewrite (Expense_init_error w _ _ _ _ _ _ Hv).
  - destruct (Expense_init_ok w _ _ _ _ _ Hv) as (c & _ & ->). simpl.
    destruct Hinv as (l & d & m & Hst & Hiss & Hnd & Hd).
    exists l, d, m. split; [exact Hst|]. split; [|split; assumption].
    eapply Forall_impl; [exact Hiss|]. intros i. apply issued_mono. simpl. lia.
Qed.

Lemma reachable_invariant w : reachable w -> invariant w.
Proof.
  induction 1 as [|c w _ IH|q w _ IH|today ds am ca ed w _ IH
                  |r l' w _ IH Hr|r d' w _ IH Hr].
  - apply invariant_new_planner.
  - now apply invariant_command.
  - apply (invariant_preserved w); [|assumption].
    apply frames_query. destruct IH as (l & d & m & -> & _). eauto.
  - now apply invariant_Expense.
  - apply (invariant_preserved w); [|assumption].
    repeat split. now apply planner_state_caller_list.
  - apply (invariant_preserved w); [|assumption].
    repeat split. now apply planner_state_caller_dict.
Qed.

End Identifiers.

(** ** The claims on add_expense and remove_expense *)

Lemma expenses_eq w l d m :
  planner_state w = Some (l, d, m) ->
  expenses w
  = (Return (fresh (dom (lists w))),
     with_lists (insert (fresh (dom (lists w))) l) w).
Proof. intros Hst. unfold expenses. now rewrite (read_expenses _ _ _ _ _ Hst). Qed.

(** C7: in a reachable world, with a generator that never repeats and
    never yields the empty string, add_expense on a description that is
    not all whitespace, an amount > 0, a Category member and a date not
    after today returns an identifier [i] and leaves the planner with its
    former expenses followed by one new expense: [i], the stripped
    description, the amount, the category and the date as given.  [i] is
    not empty and is the identifier of no expense stored before, and the
    [expenses] accessor then returns a list with exactly that content. *)
Theorem add_expense_valid (strict : lt_excludes_ge A)
    (uuid4_inj : forall j k, uuid4 j = uuid4 k -> j = k)
    (uuid4_nonempty : forall k, uuid4 k <> "")
    w today description amount c expense_date :
  reachable w ->
  all_whitespace description = false ->
  num_gt amount (of_int 0) = true ->
  datetime.gtb expense_date today = false ->
  exists l d m i w',
    planner_state w = Some (l, d, m)
    /\ add_expense today description amount (Member c) expense_date w
       = (Return i, w')
    /\ planner_state w'
       = Some ((l ++ [mkExpense i (strip description) amount c expense_date])%list,
               d, m)
    /\ i <> ""
    /\ ~ In i (ids l)
    /\ exists r w'',
         expenses w' = (Return r, w'')
         /\ lists w'' !! r
            = Some (l ++ [mkExpense i (strip description) amount c expense_date])%list
         /\ planner_state w'' = planner_state w'.
Proof.
  intros Hreach Hdesc Hamount Hdate.
  destruct (reachable_invariant uuid4_inj w Hreach) as (l & d & m & Hst & Hiss & _).
  assert (Hv : validation_error today description amount (Member c) expense_date
               = None).
  { unfold validation_error. rewrite Hdesc.
    rewrite (strict _ _ Hamount). simpl. now rewrite Hdate. }
  destruct (add_expense_ok w _ _ _ _ _ _ _ _ Hst Hv)
    as (c' & w' & [= <-] & Hrun & Hst' & _).
  exists l, d, m, (uuid4 (uuid_calls w)), w'.
  split; [assumption|]. split; [assumption|]. split; [assumption|].
  split; [apply uuid4_nonempty|].
  split; [now apply fresh_id_not_stored|].
  do 2 eexists. split; [apply (expenses_eq _ _ _ _ Hst')|].
  split; [simpl; apply lookup_insert_eq|].
  apply planner_state_new_list. rewrite Hst'. eauto.
Qed.

(** C9: in a reachable world, with a generator that never repeats,
    remove_expense fails on an absent or empty id ("Expense ID cannot be
    empty") without touching the world.  For the id of a stored expense
    it returns True and the planner keeps all its expenses but that one,
    in their order; called again with the same id it returns False and
    the planner's state stays the same.  For an id that no stored
    expense has, it returns False and the planner's state stays the
    same. *)
Theorem remove_expense_spec
    (uuid4_inj : forall j k, uuid4 j = uuid4 k -> j = k) w :
  reachable w ->
  exists l d m,
    planner_state w = Some (l, d, m)
    /\ remove_expense None w
       = (Raise (ValueError "Expense ID cannot be empty"), w)
    /\ remove_expense (Some "") w
       = (Raise (ValueError "Expense ID cannot be empty"), w)
    /\ (forall i, i <> "" -> In i (ids l) ->
          exists l1 x l2 w1 w2,
            l = (l1 ++ x :: l2)%list /\ id x = i
            /\ remove_expense (Some i) w = (Return true, w1)
            /\ planner_state w1 = Some ((l1 ++ l2)%list, d, m)
            /\ S (length (l1 ++ l2)) = length l
            /\ remove_expense (Some i) w1 = (Return false, w2)
            /\ planner_state w2 = planner_state w1)
    /\ (forall i, i <> "" -> ~ In i (ids l) ->
          exists w1,
            remove_expense (Some i) w = (Return false, w1)
            /\ planner_state w1 = planner_state w).
Proof.
  intros Hreach.
  destruct (reachable_invariant uuid4_inj w Hreach) as (l & d & m & Hst & _ & Hnd & _).
  exists l, d, m. split; [assumption|]. split; [reflexivity|]. split; [reflexivity|].
  assert (Htruthy : forall i, i <> "" -> str_truthy i = true)
    by (intros [|a i] Hi; [congruence|reflexivity]).
  split.
  - intros i Hi Hin.
    destruct (filter_present_id i l Hnd Hin) as (l1 & x & l2 & El & Ex & Ef & Hno).
    destruct (remove_expense_eq w l d m i Hst (Htruthy i Hi)) as (w1 & Hrun & Hst1 & _).
    rewrite Ef in Hrun, Hst1.
    destruct (remove_expense_eq w1 _ d m i Hst1 (Htruthy i Hi)) as (w2 & Hrun2 & Hst2 & _).
    rewrite (filter_absent_id i _ Hno) in Hrun2, Hst2.
    exists l1, x, l2, w1, w2.
    assert (Hlen : S (length (l1 ++ l2)) = length l).
    { rewrite El, !length_app. simpl. lia. }
    split; [assumption|]. split; [assumption|].
    split.
    { rewrite Hrun. do 2 f_equal. apply Nat.ltb_lt. lia. }
    split; [assumption|]. split; [assumption|].
    split; [|congruence].
    rewrite Hrun2. do 2 f_equal. apply Nat.ltb_irrefl.
  - intros i Hi Hno.
    destruct (remove_expense_eq w l d m i Hst (Htruthy i Hi)) as (w1 & Hrun & Hst1 & _).
    rewrite (filter_absent_id i _ Hno) in Hrun, Hst1.
    exists w1. split; [|congruence].
    rewrite Hrun. do 2 f_equal. apply Nat.ltb_irrefl.
Qed.

(** * Further properties of the planner *)

(** ** set_monthly_budget and set_category_budget *)

Lemma set_monthly_budget_eq w l d m budget :
  planner_state w = Some (l, d, m) ->
  num_lt budget (of_int 0) = false ->
  exists w',
    set_monthly_budget budget w = (Return tt, w')
    /\ planner_state w' = Some (l, d, budget)
    /\ uuid_calls w' = uuid_calls w.
Proof.
  intros (El & Ed & _)%planner_state_Some Hb. unfold set_monthly_budget.
  rewrite Hb. eexists. split; [reflexivity|]. split; [|reflexivity].
  unfold planner_state. simpl. now rewrite El, Ed.
Qed.

(** X1: set_monthly_budget fails on a budget < 0 ("Budget cannot be
    negative") and leaves the world as it is; otherwise the monthly
    budget becomes the new value, expenses and category budgets stay, and
    the monthly_budget accessor returns the value just set. *)
Theorem set_monthly_budget_spec w l d m budget :
  planner_state w = Some (l, d, m) ->
  (num_lt budget (of_int 0) = true ->
     set_monthly_budget budget w
     = (Raise (ValueError "Budget cannot be negative"), w))
  /\ (num_lt budget (of_int 0) = false ->
      exists w',
        set_monthly_budget budget w = (Return tt, w')
        /\ planner_state w' = Some (l, d, budget)
        /\ monthly_budget w' = (Return budget, w')).
Proof.
  intros Hst. split.
  - intros Hb. unfold set_monthly_budget. now rewrite Hb.
  - intros Hb.
    destruct (set_monthly_budget_eq w l d m budget Hst Hb) as (w' & Hrun & Hst' & _).
    exists w'. split; [assumption|]. split; [assumption|].
    apply planner_state_Some in Hst' as (_ & _ & Em).
    unfold monthly_budget, self_monthly_budget. now rewrite Em.
Qed.

Lemma set_category_budget_eq w l d m c budget :
  planner_state w = Some (l, d, m) ->
  num_lt budget (of_int 0) = false ->
  exists w',
    set_category_budget (Member c) budget w = (Return tt, w')
    /\ planner_state w' = Some (l, <[c := budget]> d, m)
    /\ uuid_calls w' = uuid_calls w.
Proof.
  intros (El & Ed & Em)%planner_state_Some Hb. unfold set_category_budget.
  rewrite Hb.
  erewrite bind_Return by apply self_category_budgets_eq.
  unfold dict_setitem. erewrite bind_Return by (apply read_dict_Some, Ed).
  unfold write_dict. rewrite Ed.
  eexists. split; [reflexivity|]. split; [|reflexivity].
  unfold planner_state. simpl. now rewrite lookup_insert_eq, El, Em.
Qed.

Lemma get_category_budget_eq w l d m c b :
  planner_state w = Some (l, d, m) -> d !! c = Some b ->
  get_category_budget (Member c) w = (Return b, w).
Proof.
  intros Hst Hc. unfold get_category_budget.
  erewrite bind_Return by apply self_category_budgets_eq.
  eapply dict_getitem_budget; eassumption.
Qed.

(** X2: set_category_budget checks the category first ("Invalid
    category"), then the budget ("Budget cannot be negative"), and on
    either failure leaves the world as it is; otherwise it overwrites the
    budget of that category only: get_category_budget returns the new
    value for it and the former value for every other category, and the
    expenses and the monthly budget stay. *)
Theorem set_category_budget_spec w l d m :
  planner_state w = Some (l, d, m) ->
  (forall category budget, isinstance_Category category = false ->
     set_category_budget category budget w
     = (Raise (ValueError "Invalid category"), w))
  /\ (forall c budget, num_lt budget (of_int 0) = true ->
        set_category_budget (Member c) budget w
        = (Raise (ValueError "Budget cannot be negative"), w))
  /\ (forall c budget, num_lt budget (of_int 0) = false ->
        exists w',
          set_category_budget (Member c) budget w = (Return tt, w')
          /\ planner_state w' = Some (l, <[c := budget]> d, m)
          /\ get_category_budget (Member c) w' = (Return budget, w')
          /\ (forall c' b, c' <> c -> d !! c' = Some b ->
                get_category_budget (Member c') w' = (Return b, w'))).
Proof.
  intros Hst. split; [|split].
  - intros [c| |] budget Hc; try discriminate; reflexivity.
  - intros c budget Hb. unfold set_category_budget. now rewrite Hb.
  - intros c budget Hb.
    destruct (set_category_budget_eq w l d m c budget Hst Hb) as (w' & Hrun & Hst' & _).
    exists w'. split; [assumption|]. split; [assumption|]. split.
    + eapply get_category_budget_eq; [eassumption|apply lookup_insert_eq].
    + intros c' b Hne Hc'. eapply get_category_budget_eq; [eassumption|].
      now rewrite lookup_insert_ne.
Qed.

(** ** get_expenses_by_category, expenses, get_expenses_summary *)

(** X3: get_expenses_by_category fails on a value that is no Category
    member ("Invalid category"); for a member it returns a new list
    holding exactly the stored expenses of that category, in the order
    they were stored, and the planner's state stays. *)
Theorem get_expenses_by_category_spec w l d m :
  planner_state w = Some (l, d, m) ->
  (forall cat, isinstance_Category cat = false ->
     get_expenses_by_category cat w = (Raise (ValueError "Invalid category"), w))
  /\ (forall c, exists r found w',
        get_expenses_by_category (Member c) w = (Return r, w')
        /\ lists w !! r = None
        /\ lists w' !! r = Some found
        /\ planner_state w' = Some (l, d, m)
        /\ sublist found l
        /\ (forall x, In x found <-> In x l /\ category x = c)).
Proof.
  intros Hst. split.
  - intros [c| |] Hc; try discriminate; reflexivity.
  - intros c.
    exists (fresh (dom (lists w))), (List.filter (has_category c) l).
    eexists. split; [apply (get_expenses_by_category_eq _ _ _ _ _ Hst)|].
    split; [apply not_elem_of_dom, is_fresh|].
    split; [simpl; apply lookup_insert_eq|].
    split; [rewrite planner_state_new_list; [assumption|rewrite Hst; eauto]|].
    split.
    + clear Hst. induction l as [|x l IH]; simpl; [constructor|].
      destruct (has_category c x); [now apply sublist_skip|now apply sublist_cons].
    + intros x. rewrite filter_In. unfold has_category.
      now rewrite bool_decide_eq_true.
Qed.

(** X4: the expenses accessor returns a new list with the stored
    expenses in their order; the planner's state stays, and a second
    access returns yet another list. *)
Theorem expenses_spec w l d m :
  planner_state w = Some (l, d, m) ->
  exists r w',
    expenses w = (Return r, w')
    /\ lists w !! r = None
    /\ lists w' !! r = Some l
    /\ r <> _expenses w'
    /\ planner_state w' = Some (l, d, m)
    /\ exists r2 w'',
         expenses w' = (Return r2, w'') /\ r2 <> r /\ lists w'' !! r2 = Some l.
Proof.
  intros Hst.
  assert (Hw : is_Some (planner_state w)) by (rewrite Hst; eauto).
  set (r := fresh (dom (lists w))).
  set (w' := with_lists (insert r l) w).
  assert (Hst' : planner_state w' = Some (l, d, m))
    by (unfold w', r; now rewrite planner_state_new_list).
  exists r, w'. split; [apply (expenses_eq _ _ _ _ Hst)|].
  split; [apply not_elem_of_dom, is_fresh|].
  split; [simpl; apply lookup_insert_eq|].
  split; [apply (fresh_list_not_expenses w Hw)|].
  split; [assumption|].
  do 2 eexists. split; [apply (expenses_eq _ _ _ _ Hst')|].
  split; [|simpl; apply lookup_insert_eq].
  intros Heq. pose proof (is_fresh (dom (lists w'))) as Hfresh.
  rewrite Heq in Hfresh. apply Hfresh, elem_of_dom. simpl.
  rewrite lookup_insert_eq. eauto.
Qed.

(** X5: get_expenses_summary returns the sum of all amounts, the number
    of expenses, their quotient as the average, which is 0 without any
    division when there is no expense, the monthly budget, and a new dict
    with the content of the category budgets; the planner's state
    stays. *)
Theorem get_expenses_summary_spec w l d m :
  planner_state w = Some (l, d, m) ->
  exists s w',
    get_expenses_summary w = (Return s, w')
    /\ total_expenses s = sum (map amount l)
    /\ expense_count s = Z.of_nat (length l)
    /\ (l = [] -> average_expense s = of_int 0)
    /\ (l <> [] ->
        average_expense s
        = truediv (sum (map amount l)) (of_int (Z.of_nat (length l))))
    /\ summary_monthly_budget s = m
    /\ dicts w' !! category_budgets s = Some d
    /\ category_budgets s <> _category_budgets w'
    /\ planner_state w' = Some (l, d, m).
Proof.
  intros Hst.
  assert (Hw : is_Some (planner_state w)) by (rewrite Hst; eauto).
  pose proof Hst as (El & Ed & Em)%planner_state_Some.
  unfold get_expenses_summary. rewrite (read_expenses _ _ _ _ _ Hst).
  erewrite bind_Return by reflexivity.
  erewrite bind_Return by apply self_category_budgets_eq.
  erewrite bind_Return by (apply read_dict_Some, Ed).
  erewrite bind_Return by reflexivity.
  do 2 eexists. split; [reflexivity|]. simpl.
  split; [reflexivity|]. split; [reflexivity|].
  split; [now intros ->|].
  split; [now destruct l|].
  split; [assumption|].
  split; [apply lookup_insert_eq|].
  split; [now apply fresh_dict_not_budgets|].
  rewrite <- Hst. now apply planner_state_new_dict.
Qed.

(** ** The planner as a state machine *)

(** X6: a new planner holds no expense, has a monthly budget of 0.0 and
    a budget of 0.0 for each of the seven categories. *)
Theorem new_planner_spec :
  planner_state new_planner = Some ([], initial_budgets, zero)
  /\ (forall c, initial_budgets !! c = Some zero)
  /\ (forall c, get_category_budget (Member c) new_planner
                = (Return zero, new_planner)).
Proof.
  assert (Hst : planner_state new_planner = Some ([], initial_budgets, zero))
    by (vm_compute; reflexivity).
  assert (Hb : forall c, initial_budgets !! c = Some zero)
    by (intros []; vm_compute; reflexivity).
  split; [assumption|]. split; [assumption|].
  intros c. eapply get_category_budget_eq; [exact Hst|apply Hb].
Qed.

(** Whatever holds of the state of a new planner and is kept by the four
    commands, when they succeed, holds in every reachable world. *)
Lemma reachable_state_ind (P : list Expense -> gmap Category A -> A -> Prop) :
  P [] initial_budgets zero ->
  (forall l d m today description amount c expense_date i,
     P l d m ->
     validation_error today description amount (Member c) expense_date = None ->
     P (l ++ [mkExpense i (strip description) amount c expense_date])%list d m) ->
  (forall l d m i,
     P l d m -> P (List.filter (fun exp => negb (String.eqb (id exp) i)) l) d m) ->
  (forall l d m budget,
     P l d m -> num_lt budget (of_int 0) = false -> P l d budget) ->
  (forall l d m c budget,
     P l d m -> num_lt budget (of_int 0) = false -> P l (<[c := budget]> d) m) ->
  forall w, reachable w ->
    exists l d m, planner_state w = Some (l, d, m) /\ P l d m.
Proof.
  intros Hnew Hadd Hremove Hmonthly Hcategory w Hreach.
  induction Hreach as [|c w _ IH|q w _ IH|today ds am ca ed w _ IH
                       |r l' w _ IH Hr|r d' w _ IH Hr].
  - exists [], initial_budgets, zero. split; [vm_compute; reflexivity|assumption].
  - destruct IH as (l & d & m & Hst & HP).
    destruct c as [today description amount category expense_date|i|b|c b];
      unfold command, returning, mbind, M_bind, bind.
    + destruct (validation_error today description amount category expense_date)
        as [msg|] eqn:Hv.
      * rewrite (add_expense_error w _ _ _ _ _ _ Hv). simpl. eauto.
      * destruct (add_expense_ok w _ _ _ _ _ _ _ _ Hst Hv)
          as (c & w' & -> & -> & Hst' & _).
        simpl. eauto 8.
    + destruct i as [i|]; [|simpl; eauto].
      destruct (str_truthy i) eqn:Hi.
      2: { unfold remove_expense. rewrite Hi. simpl. eauto. }
      destruct (remove_expense_eq w l d m i Hst Hi) as (w' & -> & Hst' & _).
      simpl. eauto 8.
    + destruct (num_lt b (of_int 0)) eqn:Hb.
      * unfold set_monthly_budget. rewrite Hb. simpl. eauto.
      * destruct (set_monthly_budget_eq w l d m b Hst Hb) as (w' & -> & Hst' & _).
        simpl. eauto 8.
    + destruct c as [c| |]; try (simpl; eauto; fail).
      destruct (num_lt b (of_int 0)) eqn:Hb.
      * unfold set_category_budget. rewrite Hb. simpl. eauto.
      * destruct (set_category_budget_eq w l d m c b Hst Hb) as (w' & -> & Hst' & _).
        simpl. eauto 8.
  - destruct IH as (l & d & m & Hst & HP).
    destruct (frames_query q w) as [(Hsame & _) _]; [rewrite Hst; eauto|].
    exists l, d, m. split; [congruence|assumption].
  - destruct IH as (l & d & m & Hst & HP). exists l, d, m. split; [|assumption].
    destruct (validation_error today ds am ca ed) as [msg|] eqn:Hv.
    + now rewrite (Expense_init_error w _ _ _ _ _ _ Hv).
    + destruct (Expense_init_ok w _ _ _ _ _ Hv) as (c & _ & ->). exact Hst.
  - destruct IH as (l & d & m & Hst & HP). exists l, d, m. split; [|assumption].
    now rewrite planner_state_caller_list.
  - destruct IH as (l & d & m & Hst & HP). exists l, d, m. split; [|assumption].
    now rewrite planner_state_caller_dict.
Qed.

(** X7: in every reachable world each category has a budget:
    get_category_budget returns a value for all seven members and never
    raises KeyError for one; for a value that is no member it raises
    KeyError.  The world stays as it is. *)
Theorem get_category_budget_total w :
  reachable w ->
  (forall c, exists b, get_category_budget (Member c) w = (Return b, w))
  /\ (forall o, isinstance_Category o = false ->
        get_category_budget o w = (Raise KeyError, w)).
Proof.
  intros Hreach. split.
  - destruct (reachable_state_ind (fun _ d _ => forall c, is_Some (d !! c)))
      with (w := w) as (l & d & m & Hst & Hd); auto.
    + intros []; vm_compute; eauto.
    + intros l d m c budget Hd _ c'. destruct (decide (c = c')) as [->|Hne].
      * rewrite lookup_insert_eq. eauto.
      * now rewrite lookup_insert_ne.
    + intros c. destruct (Hd c) as [b Hb]. exists b.
      eapply get_category_budget_eq; eassumption.
  - intros [c| |] Ho; try discriminate; reflexivity.
Qed.

(** X8: with a generator that never repeats and never yields the empty
    string, the identifiers of the stored expenses are, in every
    reachable world, not empty and different from one another. *)
Theorem stored_ids_distinct
    (uuid4_inj : forall j k, uuid4 j = uuid4 k -> j = k)
    (uuid4_nonempty : forall k, uuid4 k <> "") w :
  reachable w ->
  exists l d m,
    planner_state w = Some (l, d, m)
    /\ NoDup (ids l)
    /\ Forall (fun i => i <> "") (ids l).
Proof.
  intros Hreach.
  destruct (reachable_invariant uuid4_inj w Hreach) as (l & d & m & Hst & Hiss & Hnd & _).
  exists l, d, m. split; [assumption|]. split; [assumption|].
  eapply Forall_impl; [exact Hiss|]. intros i (k & _ & ->). apply uuid4_nonempty.
Qed.

(** ** strip, once more *)

Lemma lstrip_fixed (l : list ascii) :
  match l with [] => True | c :: _ => isspace c = false end -> lstrip l = l.
Proof. destruct l as [|c l]; simpl; [reflexivity|]. now intros ->. Qed.

Lemma lstrip_head (l : list ascii) :
  match lstrip l with [] => True | c :: _ => isspace c = false end.
Proof.
  destruct (lstrip l) as [|c t] eqn:E; [exact I|].
  eapply lstrip_not_space, E.
Qed.

Lemma lstrip_suffix (l : list ascii) : exists p, l = (p ++ lstrip l)%list.
Proof.
  induction l as [|c l [p IH]]; simpl; [now exists []|].
  destruct (isspace c); [|now exists []].
  exists (c :: p). simpl. now f_equal.
Qed.

Lemma trim_fixed (l : list ascii) : trim (trim l) = trim l.
Proof.
  unfold trim.
  set (l1 := lstrip l).
  set (l2 := lstrip (rev l1)).
  assert (Hl2 : lstrip l2 = l2) by apply lstrip_fixed, lstrip_head.
  assert (Ht : lstrip (rev l2) = rev l2).
  { apply lstrip_fixed.
    destruct (lstrip_suffix (rev l1)) as [p Hp]. fold l2 in Hp.
    apply (f_equal (@rev ascii)) in Hp.
    rewrite rev_involutive, rev_app_distr in Hp.
    pose proof (lstrip_head l) as Hhead. fold l1 in Hhead. rewrite Hp in Hhead.
    destruct (rev l2); [exact I|exact Hhead]. }
  now rewrite Ht, rev_involutive, Hl2.
Qed.

Lemma strip_idempotent s : strip (strip s) = strip s.
Proof.
  unfold strip. rewrite list_ascii_of_string_of_list_ascii.
  fold (trim (list_ascii_of_string s)).
  fold (trim (trim (list_ascii_of_string s))).
  now rewrite trim_fixed.
Qed.

(** X9: every expense stored in a reachable world went through the
    checks of Expense.__init__: its amount is not <= 0 and its
    description is not empty and has no whitespace left to strip. *)
Theorem stored_expenses_accepted w :
  reachable w ->
  exists l d m, planner_state w = Some (l, d, m) /\ Forall accepted l.
Proof.
  apply (reachable_state_ind (fun l _ _ => Forall accepted l)).
  - constructor.
  - intros l d m today description amount c expense_date i Hl Hv.
    apply Forall_app. split; [assumption|]. constructor; [|constructor].
    unfold validation_error in Hv.
    destruct (all_whitespace description) eqn:Hd; [discriminate|].
    destruct (num_le amount (of_int 0)) eqn:Ha; [discriminate|].
    unfold accepted. simpl. split; [assumption|].
    split; [now rewrite strip_truthy, Hd|apply strip_idempotent].
  - intros l d m i Hl. rewrite List.Forall_forall in *.
    intros x [Hx _]%filter_In. now apply Hl.
  - auto.
  - auto.
Qed.

(** X10: no budget of a reachable world is < 0, the literal 0.0 not
    being < 0: neither the monthly budget nor any category budget. *)
Theorem budgets_never_negative (zero_not_negative : num_lt zero (of_int 0) = false) w :
  reachable w ->
  exists l d m, planner_state w = Some (l, d, m) /\ budgets_not_negative d m.
Proof.
  apply (reachable_state_ind (fun _ d m => budgets_not_negative d m)).
  - split; [assumption|].
    intros c b Hb.
    assert (initial_budgets !! c = Some zero) as E
      by (destruct c; vm_compute; reflexivity).
    rewrite E in Hb. injection Hb as <-. assumption.
  - auto.
  - auto.
  - intros l d m budget [_ Hd] Hb. split; assumption.
  - intros l d m c budget [Hm Hd] Hb. split; [assumption|].
    intros c' b. destruct (decide (c = c')) as [->|Hne].
    + rewrite lookup_insert_eq. now intros [= <-].
    + rewrite lookup_insert_ne by assumption. apply Hd.
Qed.

(** ** How the operations compose *)

(** X11: in a reachable world, with a generator that never repeats and
    never yields the empty string, removing the identifier that a
    successful add_expense has just returned gives True and brings the
    planner back to the state it had before the expense was added. *)
Theorem add_then_remove
    (uuid4_inj : forall j k, uuid4 j = uuid4 k -> j = k)
    (uuid4_nonempty : forall k, uuid4 k <> "")
    w today description amount category expense_date i w1 :
  reachable w ->
  add_expense today description amount category expense_date w = (Return i, w1) ->
  exists w2,
    remove_expense (Some i) w1 = (Return true, w2)
    /\ planner_state w2 = planner_state w.
Proof.
  intros Hreach Hadd.
  destruct (reachable_invariant uuid4_inj w Hreach) as (l & d & m & Hst & Hiss & _).
  destruct (validation_error today description amount category expense_date)
    as [msg|] eqn:Hv.
  { rewrite (add_expense_error w _ _ _ _ _ _ Hv) in Hadd. discriminate. }
  destruct (add_expense_ok w _ _ _ _ _ _ _ _ Hst Hv)
    as (c & w' & -> & Hrun & Hst1 & _).
  rewrite Hrun in Hadd. injection Hadd as <- <-.
  assert (Hi : str_truthy (uuid4 (uuid_calls w)) = true).
  { pose proof (uuid4_nonempty (uuid_calls w)) as Hne.
    destruct (uuid4 (uuid_calls w)); [congruence|reflexivity]. }
  destruct (remove_expense_eq _ _ _ _ _ Hst1 Hi) as (w2 & Hrun2 & Hst2 & _).
  match type of Hst2 with
  | _ = Some (?kept, _, _) => assert (Hkept : kept = l)
  end.
  { rewrite List.filter_app. cbn [List.filter id].
    rewrite String.eqb_refl. cbn [negb].
    rewrite filter_absent_id by now apply fresh_id_not_stored.
    apply app_nil_r. }
  rewrite Hkept in Hrun2, Hst2.
  exists w2. split; [|congruence].
  rewrite Hrun2. do 2 f_equal. rewrite length_app. simpl. apply Nat.ltb_lt. lia.
Qed.

(** X12: after a successful add_expense, get_total_expenses over a
    range that contains the date of the new expense is the former total
    plus its amount, and over a range that does not contain it, the
    former total. *)
Theorem total_after_add w l d m today description amount category expense_date
    i w1 s e t :
  planner_state w = Some (l, d, m) ->
  add_expense today description amount category expense_date w = (Return i, w1) ->
  get_total_expenses (Some s) (Some e) w = (Return t, w) ->
  get_total_expenses (Some s) (Some e) w1
  = (Return (if datetime.between s expense_date e then add t amount else t), w1).
Proof.
  intros Hst Hadd Htotal.
  destruct (validation_error today description amount category expense_date)
    as [msg|] eqn:Hv.
  { rewrite (add_expense_error w _ _ _ _ _ _ Hv) in Hadd. discriminate. }
  destruct (add_expense_ok w _ _ _ _ _ _ _ _ Hst Hv)
    as (c & w' & -> & Hrun & Hst1 & _).
  rewrite Hrun in Hadd. injection Hadd as <- <-.
  rewrite (get_total_expenses_eq _ _ _ _ _ _ Hst) in Htotal.
  rewrite (get_total_expenses_eq _ _ _ _ _ _ Hst1).
  destruct (datetime.gtb s e); [discriminate|].
  injection Htotal as <-. f_equal. f_equal.
  rewrite List.filter_app, map_app. unfold total. rewrite fold_left_app.
  cbn [List.filter]. unfold in_range. cbn [date].
  destruct (datetime.between s expense_date e); reflexivity.
Qed.

(** ** Dates in an inverted range *)

Lemma ltb_lex a b :
  datetime.ltb a b = true
  <-> datetime.year a < datetime.year b
      \/ (datetime.year a = datetime.year b
          /\ (datetime.month a < datetime.month b
              \/ (datetime.month a = datetime.month b
                  /\ datetime.day a < datetime.day b))).
Proof.
  unfold datetime.ltb.
  rewrite !orb_true_iff, !andb_true_iff, !orb_true_iff, !andb_true_iff.
  rewrite !Z.ltb_lt, !Z.eqb_eq. tauto.
Qed.

Lemma between_inverted s e x :
  datetime.gtb s e = true -> datetime.between s x e = false.
Proof.
  unfold datetime.gtb, datetime.between, datetime.leb. intros Hse.
  destruct (datetime.ltb x s) eqn:Hxs; [reflexivity|].
  destruct (datetime.ltb e x) eqn:Hex; [reflexivity|]. exfalso.
  apply ltb_lex in Hse.
  assert (Hnxs : ~ datetime.ltb x s = true) by congruence.
  assert (Hnex : ~ datetime.ltb e x = true) by congruence.
  rewrite ltb_lex in Hnxs, Hnex. lia.
Qed.

(** X13: where get_total_expenses raises, get_category_statistics does
    not: called with start > end it returns a new, empty dict. *)
Theorem get_category_statistics_inverted w l d m s e :
  planner_state w = Some (l, d, m) ->
  datetime.gtb s e = true ->
  exists r w',
    get_category_statistics (Some s) (Some e) w = (Return r, w')
    /\ dicts w' !! r = Some ∅
    /\ planner_state w' = Some (l, d, m).
Proof.
  intros Hst Hse.
  assert (Hempty : fold_left (statistics_step s e) l ∅ = ∅).
  { generalize (∅ : gmap Category A).
    clear Hst. induction l as [|x l IH]; intros d0; simpl; [reflexivity|].
    unfold statistics_step at 2, in_range.
    rewrite (between_inverted s e (date x) Hse). apply IH. }
  do 2 eexists. split; [apply (get_category_statistics_eq _ _ _ _ _ _ Hst)|].
  rewrite Hempty. split; [simpl; apply lookup_insert_eq|].
  rewrite planner_state_new_dict; [assumption|rewrite Hst; eauto].
Qed.

(** ** Failures *)

Lemma returning_Raise {R} (f : R -> Value) (c : M (A := A) R) w e w' :
  c w = (Raise e, w') -> returning f c w = (Raise e, w').
Proof. intros E. unfold returning. now erewrite bind_Raise by exact E. Qed.

Lemma returning_Return {R} (f : R -> Value) (c : M (A := A) R) w r w' :
  c w = (Return r, w') -> returning f c w = (Return (f r), w').
Proof. intros E. unfold returning. now erewrite bind_Return by exact E. Qed.

(** X14: a command that raises has changed nothing: whenever
    add_expense, remove_expense, set_monthly_budget or set_category_budget
    raises, what it raises is a ValueError and the world is exactly what
    it was before the call. *)
Theorem failed_command_changes_nothing c w :
  is_Some (planner_state w) ->
  raises (fst (command c w)) ->
  raises_ValueError (fst (command c w)) /\ snd (command c w) = w.
Proof.
  intros [[[l d] m] Hst].
  destruct c as [today description amount category expense_date|i|b|c b];
    unfold command.
  - destruct (validation_error today description amount category expense_date)
      as [msg|] eqn:Hv.
    + rewrite (returning_Raise _ _ _ _ _ (add_expense_error w _ _ _ _ _ _ Hv)).
      simpl. auto.
    + destruct (add_expense_ok w _ _ _ _ _ _ _ _ Hst Hv) as (c & w' & -> & Hrun & _).
      rewrite (returning_Return _ _ _ _ _ Hrun). intros [].
  - destruct i as [i|]; [|simpl; auto].
    destruct (str_truthy i) eqn:Hi.
    + destruct (remove_expense_eq w l d m i Hst Hi) as (w' & Hrun & _).
      rewrite (returning_Return _ _ _ _ _ Hrun). intros [].
    + unfold returning, remove_expense, mbind, M_bind, bind. rewrite Hi.
      simpl. auto.
  - destruct (num_lt b (of_int 0)) eqn:Hb.
    + unfold returning, set_monthly_budget, mbind, M_bind, bind. rewrite Hb.
      simpl. auto.
    + destruct (set_monthly_budget_eq w l d m b Hst Hb) as (w' & Hrun & _).
      rewrite (returning_Return _ _ _ _ _ Hrun). intros [].
  - destruct c as [c| |]; try (simpl; auto; fail).
    destruct (num_lt b (of_int 0)) eqn:Hb.
    + unfold returning, set_category_budget, mbind, M_bind, bind. rewrite Hb.
      simpl. auto.
    + destruct (set_category_budget_eq w l d m c b Hst Hb) as (w' & Hrun & _).
      rewrite (returning_Return _ _ _ _ _ Hrun). intros [].
Qed.

Lemma new_year_out_of_range y m d :
  datetime.c_int y = true -> datetime.c_int m = true -> datetime.c_int d = true ->
  y < datetime.MINYEAR \/ datetime.MAXYEAR < y ->
  datetime.new y m d
  = Raise (ValueError ("year " +:+ pretty y +:+ " is out of range")).
Proof.
  intros Hcy Hcm Hcd Hy. unfold datetime.new. rewrite Hcy, Hcm, Hcd.
  cbn [andb negb].
  replace ((datetime.MINYEAR <=? y) && (y <=? datetime.MAXYEAR)) with false;
    [reflexivity|].
  symmetry. apply andb_false_iff.
  destruct Hy; [left; apply Z.leb_gt|right; apply Z.leb_gt]; lia.
Qed.

(** X15: get_remaining_monthly_budget checks the month before it builds
    any date: a month outside 1..12 fails with "Month must be between 1
    and 12".  With a month in 1..12, a year that is a C int but outside
    1..9999 fails in the date constructor with "year N is out of range",
    and a year that is no C int fails there with OverflowError.  In all
    three cases the world stays as it is. *)
Theorem get_remaining_monthly_budget_errors w year month :
  (month < 1 \/ 12 < month ->
     get_remaining_monthly_budget year month w
     = (Raise (ValueError "Month must be between 1 and 12"), w))
  /\ (1 <= month <= 12 ->
      datetime.INT_MIN <= year <= datetime.INT_MAX ->
      year < datetime.MINYEAR \/ datetime.MAXYEAR < year ->
      get_remaining_monthly_budget year month w
      = (Raise (ValueError ("year " +:+ pretty year +:+ " is out of range")), w))
  /\ (1 <= month <= 12 ->
      year < datetime.INT_MIN \/ datetime.INT_MAX < year ->
      get_remaining_monthly_budget year month w = (Raise OverflowError, w)).
Proof.
  unfold get_remaining_monthly_budget. split; [|split].
  - intros Hm.
    replace ((1 <=? month) && (month <=? 12)) with false; [reflexivity|].
    symmetry. apply andb_false_iff.
    destruct Hm; [left; apply Z.leb_gt|right; apply Z.leb_gt]; lia.
  - intros Hm Hc Hy.
    replace ((1 <=? month) && (month <=? 12)) with true
      by (symmetry; apply andb_true_iff; split; apply Z.leb_le; lia).
    cbn [negb].
    erewrite bind_Raise; [reflexivity|].
    unfold lift. rewrite new_year_out_of_range; auto.
    + now apply c_int_spec.
    + apply c_int_spec. unfold datetime.INT_MIN, datetime.INT_MAX. lia.
  - intros Hm Hy.
    replace ((1 <=? month) && (month <=? 12)) with true
      by (symmetry; apply andb_true_iff; split; apply Z.leb_le; lia).
    cbn [negb].
    erewrite bind_Raise; [reflexivity|].
    unfold lift. rewrite new_overflow; [reflexivity|]. now apply c_int_false.
Qed.

(** X16: from January to November the method never returns and leaves
    the world as it is.  With a year that is a C int it raises a
    ValueError: that of the date constructor for a year outside 1..9999,
    and otherwise that of [replace], asked for day 0 of the next month;
    with any other year the date constructor raises OverflowError. *)
Lemma get_remaining_monthly_budget_before_december w year month :
  1 <= month <= 11 ->
  snd (get_remaining_monthly_budget year month w) = w
  /\ (datetime.INT_MIN <= year <= datetime.INT_MAX ->
      raises_ValueError (fst (get_remaining_monthly_budget year month w)))
  /\ (year < datetime.INT_MIN \/ datetime.INT_MAX < year ->
      fst (get_remaining_monthly_budget year month w) = Raise OverflowError).
Proof.
  intros Hm. split; [apply readonly_get_remaining_monthly_budget|].
  unfold get_remaining_monthly_budget.
  replace ((1 <=? month) && (month <=? 12)) with true
    by (symmetry; apply andb_true_iff; split; apply Z.leb_le; lia).
  replace (month =? 12) with false by (symmetry; apply Z.eqb_neq; lia).
  simpl negb. cbv iota.
  unfold mbind, M_bind, bind, lift. split.
  - intros Hy%c_int_spec.
    assert (Hm0 : datetime.c_int month = true)
      by (apply c_int_spec; unfold datetime.INT_MIN, datetime.INT_MAX; lia).
    assert (Hm1 : datetime.c_int (month + 1) = true)
      by (apply c_int_spec; unfold datetime.INT_MIN, datetime.INT_MAX; lia).
    destruct (new_cases year month 1 Hy Hm0 eq_refl) as [->|[msg ->]];
      [|exact I].
    destruct (new_cases year (month + 1) 1 Hy Hm1 eq_refl) as [->|[msg ->]];
      [|exact I].
    unfold datetime.replace_day. cbn [datetime.day datetime.year datetime.month].
    change (1 - 1) with 0.
    pose proof (new_day_zero year (month + 1) Hy Hm1) as Hz.
    destruct (datetime.new _ _ 0) as [?|[?| | |]]; simpl in *; try contradiction.
    exact I.
  - intros Hy%c_int_false. now rewrite new_overflow.
Qed.

(** X18: get_total_expenses, get_remaining_monthly_budget, monthly_budget
    and get_category_budget create no object and change nothing at all,
    whatever the arguments and whether they return or raise. *)
Theorem plain_reads_change_nothing w :
  (forall s e, snd (get_total_expenses s e w) = w)
  /\ (forall year month, snd (get_remaining_monthly_budget year month w) = w)
  /\ snd (monthly_budget w) = w
  /\ (forall category, snd (get_category_budget category w) = w).
Proof.
  split; [|split; [|split]].
  - intros s e. apply readonly_get_total_expenses.
  - intros year month. apply readonly_get_remaining_monthly_budget.
  - reflexivity.
  - intros category. apply readonly_get_category_budget.
Qed.

(** X19: constructing an Expense touches no list, no dict and no
    attribute of the planner.  When it raises, the world is what it was
    and no identifier was drawn; when it returns, exactly one identifier
    was drawn, and the expense carries it together with the stripped
    description and the amount, category and date as given, and is
    accepted. *)
Theorem Expense_init_spec w today text number_ cat when :
  let out := Expense_init today text number_ cat when w in
  lists (snd out) = lists w
  /\ dicts (snd out) = dicts w
  /\ planner_state (snd out) = planner_state w
  /\ (raises (fst out) -> snd out = w)
  /\ (forall x, fst out = Return x ->
        uuid_calls (snd out) = S (uuid_calls w)
        /\ id x = uuid4 (uuid_calls w)
        /\ description x = strip text
        /\ amount x = number_
        /\ Member (category x) = cat
        /\ date x = when
        /\ accepted x).
Proof.
  intros out. subst out.
  destruct (validation_error today text number_ cat when) as [msg|] eqn:Hv.
  - rewrite (Expense_init_error w _ _ _ _ _ _ Hv). simpl.
    split; [reflexivity|]. split; [reflexivity|]. split; [reflexivity|].
    split; [reflexivity|]. discriminate.
  - destruct (Expense_init_ok w _ _ _ _ _ Hv) as (c & -> & ->). simpl.
    split; [reflexivity|]. split; [reflexivity|]. split; [reflexivity|].
    split; [intros []|].
    intros x [= <-]. simpl. do 6 (split; [reflexivity|]).
    unfold validation_error in Hv.
    destruct (all_whitespace text) eqn:Hd; [discriminate|].
    destruct (num_le number_ (of_int 0)) eqn:Ha; [discriminate|].
    unfold accepted. simpl. split; [assumption|].
    split; [now rewrite strip_truthy, Hd|apply strip_idempotent].
Qed.

End PlannerProofs.

(** * The laws at the rationals *)

(** ** The rationals satisfy the laws *)

Lemma Q_strict : lt_excludes_ge Q.
Proof. intros x y Hlt. now apply negb_true_iff in Hlt. Qed.

Lemma Q_order : OrderLaws Q (fun _ => True).
Proof.
  split; unfold num_lt, num_le, num_eq; simpl.
  - intros x y _ _ Hlt. now apply negb_false_iff in Hlt.
  - intros x y _ _ Hlt. apply negb_true_iff in Hlt.
    apply Qle_bool_iff, Qlt_le_weak, Qnot_le_lt.
    intros Hle%Qle_bool_iff. congruence.
  - intros x y a _ _ _ Hx%Qeq_bool_iff Hy%Qeq_bool_iff.
    apply negb_false_iff, Qle_bool_iff. rewrite Hx, Hy. apply Qle_refl.
Qed.

Lemma uuid_seq_inj j k : uuid_seq j = uuid_seq k -> j = k.
Proof.
  unfold uuid_seq. intros E.
  apply (f_equal list_ascii_of_string) in E.
  rewrite !list_ascii_of_string_of_list_ascii in E.
  apply (f_equal (@length ascii)) in E. rewrite !repeat_length in E.
  now injection E.
Defined.

Lemma uuid_seq_nonempty k : uuid_seq k <> "".
Proof. discriminate. Defined.

(** * The theorems at concrete planners *)

Lemma sample_state :
  planner_state sample = Some ([lunch; bus; movie], sample_budgets, 1500%Q).
Proof. reflexivity. Defined.

Lemma get_total_expenses_spec_witness :
  planner_state sample = Some ([lunch; bus; movie], sample_budgets, 1500%Q)
  /\ get_total_expenses (Some jan15) (Some jan20) sample
     = (Return (total [25%Q; 5%Q; 25%Q]), sample)
  /\ get_total_expenses (Some jan20) (Some jan15) sample
     = (Raise (ValueError "Start date cannot be after end date"), sample).
Proof.
  split; [reflexivity|].
  destruct (get_total_expenses_spec sample _ _ _ sample_state)
    as (_ & _ & Hinv & Hsum & _).
  split; [apply (Hsum jan15 jan20); reflexivity|apply (Hinv jan20 jan15); reflexivity].
Defined.

Lemma get_category_statistics_spec_witness :
  planner_state sample = Some ([lunch; bus; movie], sample_budgets, 1500%Q)
  /\ exists r stats,
       get_category_statistics (Some jan15) (Some jan20) sample
       = (Return r, with_dicts (insert r stats) sample)
       /\ stats !! FOOD = Some (total [25%Q; 25%Q])
       /\ stats !! HEALTH = None.
Proof.
  split; [reflexivity|].
  destruct (get_category_statistics_spec sample _ _ _ jan15 jan20 sample_state)
    as (r & stats & Hrun & _ & _ & Hsome & Hnone).
  exists r, stats. split; [exact Hrun|]. split.
  - apply (Hsome FOOD). exists lunch. simpl. auto.
  - apply (Hnone HEALTH). intros x [<-|[<-|[<-|[]]]] _; discriminate.
Defined.

Lemma upto_cases (P : Z -> Prop) (n : nat) :
  Forall P (upto n) -> forall a, 0 <= a <= Z.of_nat n -> P a.
Proof.
  intros H a Ha. rewrite List.Forall_forall in H. apply H.
  unfold upto. apply in_map_iff. exists (Z.to_nat a).
  split; [lia|]. apply in_seq. lia.
Qed.

(** Binary64 adds the whole numbers from 0 to 100 without rounding. *)
Lemma whole_floats_exact : ExactBelow float float_of_int 100.
Proof.
  split; [reflexivity|reflexivity|].
  intros a b Ha Hb Hab.
  assert (Ha' : a <= 100) by lia.
  revert b Hb Hab.
  apply (upto_cases
    (fun a => forall b, 0 <= b -> a + b <= 100 ->
       add (float_of_int a) (float_of_int b) = float_of_int (a + b)) 100);
    [|lia].
  cbv [upto seq map].
  repeat (apply Forall_cons_2;
    [intros b Hb Hab;
     apply (upto_cases
       (fun b => add (float_of_int _) (float_of_int b) = float_of_int (_ + b))
       100); [|lia];
     cbv [upto seq map];
     repeat (apply Forall_cons_2; [vm_compute; reflexivity|]); apply Forall_nil_2
    |]).
  apply Forall_nil_2.
Qed.

Lemma total_equals_statistics_sum_exact_witness :
  planner_state three_expenses
  = Some ([whole_lunch; whole_bus; whole_movie], initial_budgets, 0%float)
  /\ Forall (in_units float_of_int whole_units)
       (List.filter (in_range dec20 dec20) [whole_lunch; whole_bus; whole_movie])
  /\ units_sum (map whole_units
                  (List.filter (in_range dec20 dec20)
                     [whole_lunch; whole_bus; whole_movie])) <= 100
  /\ exists t r stats w',
       get_total_expenses (Some dec20) (Some dec20) three_expenses
       = (Return t, three_expenses)
       /\ get_category_statistics (Some dec20) (Some dec20) three_expenses
          = (Return r, w')
       /\ dicts w' !! r = Some stats
       /\ t = dict_values_sum stats.
Proof.
  assert (Hst : planner_state three_expenses
    = Some ([whole_lunch; whole_bus; whole_movie], initial_budgets, 0%float))
    by (vm_compute; reflexivity).
  assert (Hl : Forall (in_units float_of_int whole_units)
    (List.filter (in_range dec20 dec20) [whole_lunch; whole_bus; whole_movie])).
  { repeat apply Forall_cons_2; try apply Forall_nil_2;
      (split; [vm_compute; discriminate|vm_compute; reflexivity]). }
  assert (Hb : units_sum (map whole_units
    (List.filter (in_range dec20 dec20)
       [whole_lunch; whole_bus; whole_movie])) <= 100)
    by (vm_compute; discriminate).
  split; [exact Hst|]. split; [exact Hl|]. split; [exact Hb|].
  exact (total_equals_statistics_sum_exact float_of_int 100 whole_floats_exact
           whole_units three_expenses _ _ _ dec20 Hst Hl Hb).
Defined.




Lemma is_category_budget_exceeded_spec_witness :
  planner_state sample = Some ([lunch; bus; movie], sample_budgets, 1500%Q)
  /\ sample_budgets !! FOOD = Some 40%Q
  /\ exists w',
       is_category_budget_exceeded (Member FOOD) sample = (Return true, w')
       /\ planner_state w' = Some ([lunch; bus; movie], sample_budgets, 1500%Q).
Proof.
  split; [reflexivity|]. split; [reflexivity|].
  exact (is_category_budget_exceeded_spec sample _ _ _ FOOD 40%Q sample_state eq_refl).
Defined.

Lemma add_expense_valid_witness :
  reachable (A := Q) new_planner
  /\ all_whitespace "  Lunch " = false
  /\ num_gt 25%Q (of_int 0) = true
  /\ datetime.gtb jan15 dec20 = false
  /\ exists l d m i w',
       planner_state (A := Q) new_planner = Some (l, d, m)
       /\ add_expense dec20 "  Lunch " 25%Q (Member FOOD) jan15 new_planner
          = (Return i, w')
       /\ planner_state w'
          = Some ((l ++ [mkExpense i "Lunch" 25%Q FOOD jan15])%list, d, m)
       /\ i <> "".
Proof.
  split; [apply reachable_new|]. split; [reflexivity|]. split; [reflexivity|].
  split; [reflexivity|].
  destruct (add_expense_valid (generator := uuid_seq_generator) Q_strict
              uuid_seq_inj uuid_seq_nonempty
              new_planner dec20 "  Lunch " 25%Q FOOD jan15
              reachable_new eq_refl eq_refl eq_refl)
    as (l & d & m & i & w' & Hst & Hrun & Hst' & Hi & _).
  exists l, d, m, i, w'. auto.
Defined.

Lemma add_expense_raises_iff_witness :
  planner_state sample = Some ([lunch; bus; movie], sample_budgets, 1500%Q)
  /\ add_expense dec20 "   " 25%Q (Member FOOD) jan15 sample
     = (Raise (ValueError "Description cannot be empty"), sample).
Proof.
  split; [reflexivity|].
  destruct (add_expense_raises_iff sample _ _ _ dec20 "   " 25%Q
              (Member FOOD) jan15 sample_state)
    as (_ & Hsame & Hdesc & _).
  specialize (Hdesc eq_refl).
  destruct (Hsame ltac:(rewrite Hdesc; exact I)) as [_ Hw].
  destruct (add_expense dec20 "   " 25%Q (Member FOOD) jan15 sample)
    as [o w']. simpl in *. now subst.
Defined.

Lemma remove_expense_spec_witness :
  reachable after_lunch
  /\ exists w1 w2,
       remove_expense (Some "a") after_lunch = (Return true, w1)
       /\ remove_expense (Some "a") w1 = (Return false, w2)
       /\ planner_state w2 = planner_state w1.
Proof.
  assert (Hreach : reachable after_lunch)
    by apply reachable_command, reachable_new.
  split; [exact Hreach|].
  destruct (remove_expense_spec (generator := uuid_seq_generator) uuid_seq_inj
              after_lunch Hreach)
    as (l & d & m & Hst & _ & _ & Hpresent & _).
  assert (l = [mkExpense "a" "Lunch" 25%Q FOOD jan15]) as ->.
  { vm_compute in Hst. now injection Hst as <- _ _. }
  destruct (Hpresent "a" ltac:(discriminate) ltac:(now left))
    as (l1 & x & l2 & w1 & w2 & _ & _ & Hrun1 & _ & _ & Hrun2 & Hsame).
  exists w1, w2. auto.
Defined.

Lemma queries_preserve_planner_witness :
  is_Some (planner_state sample)
  /\ planner_state (snd (query (Q_get_top_expenses 2) sample)) = planner_state sample.
Proof.
  assert (Hsome : is_Some (planner_state sample)) by (rewrite sample_state; eauto).
  split; [exact Hsome|].
  pose proof (queries_preserve_planner (Q_get_top_expenses 2) sample Hsome) as Hq.
  cbv zeta in Hq. exact (proj1 Hq).
Defined.

(** * Binary64 amounts: the total and the statistics can disagree *)

Lemma float_planner_reachable : reachable float_planner.
Proof. do 3 apply reachable_command. apply reachable_new. Qed.

Lemma float_planner_total :
  fst (get_total_expenses (Some day) (Some day) float_planner)
  = Return 0x1.3333333333334p-1%float.
Proof. vm_compute. reflexivity. Qed.

Lemma float_planner_statistics :
  let out := get_category_statistics (Some day) (Some day) float_planner in
  exists r stats,
    fst out = Return r
    /\ dicts (snd out) !! r = Some stats
    /\ stats !! FOOD = Some f0_1
    /\ stats !! TRANSPORT = Some 0.5%float
    /\ dict_values_sum stats = 0x1.3333333333333p-1%float.
Proof. vm_compute. do 2 eexists. repeat split; reflexivity. Qed.

(** With Python floats the total and the sum of the statistics differ:
    with expenses of 0.1 (FOOD), 0.2 and 0.3 (TRANSPORT) on one day,
    get_total_expenses returns
    0.6000000000000001 (0x1.3333333333334p-1) and the values of
    get_category_statistics, 0.1 and 0.5, add up to 0.6
    (0x1.3333333333333p-1). *)
Lemma total_differs_from_statistics_sum :
  ~ (exists t r stats w',
       get_total_expenses (Some day) (Some day) float_planner
       = (Return t, float_planner)
       /\ get_category_statistics (Some day) (Some day) float_planner
          = (Return r, w')
       /\ dicts w' !! r = Some stats
       /\ t = dict_values_sum stats).
Proof.
  intros (t & r & stats & w' & Htotal & Hstats & Hlook & Heq).
  pose proof float_planner_total as Ht. rewrite Htotal in Ht. simpl in Ht.
  injection Ht as ->.
  destruct float_planner_statistics as (r0 & stats0 & Hr0 & Hlook0 & _ & _ & Hsum).
  rewrite Hstats in Hr0, Hlook0. simpl in Hr0, Hlook0.
  injection Hr0 as <-. rewrite Hlook in Hlook0. injection Hlook0 as <-.
  rewrite Hsum in Heq.
  apply (f_equal (PrimFloat.eqb 0x1.3333333333334p-1%float)) in Heq.
  vm_compute in Heq. discriminate.
Qed.

(** * The further properties at concrete planners *)

Lemma after_lunch_reachable : reachable after_lunch.
Proof. apply reachable_command, reachable_new. Defined.

Lemma set_monthly_budget_spec_witness :
  planner_state sample = Some ([lunch; bus; movie], sample_budgets, 1500%Q)
  /\ exists w',
       set_monthly_budget 2000%Q sample = (Return tt, w')
       /\ planner_state w' = Some ([lunch; bus; movie], sample_budgets, 2000%Q)
       /\ monthly_budget w' = (Return 2000%Q, w').
Proof.
  split; [reflexivity|].
  destruct (set_monthly_budget_spec sample _ _ _ 2000%Q sample_state) as [_ Hok].
  exact (Hok eq_refl).
Defined.

Lemma set_category_budget_spec_witness :
  planner_state sample = Some ([lunch; bus; movie], sample_budgets, 1500%Q)
  /\ set_category_budget (Str "food") 60%Q sample
     = (Raise (ValueError "Invalid category"), sample)
  /\ exists w',
       set_category_budget (Member TRANSPORT) 60%Q sample = (Return tt, w')
       /\ get_category_budget (Member TRANSPORT) w' = (Return 60%Q, w')
       /\ get_category_budget (Member FOOD) w' = (Return 40%Q, w').
Proof.
  split; [reflexivity|].
  destruct (set_category_budget_spec sample _ _ _ sample_state)
    as (Hcat & _ & Hok).
  split; [apply Hcat; reflexivity|].
  destruct (Hok TRANSPORT 60%Q eq_refl) as (w' & Hrun & _ & Hnew & Hold).
  exists w'. split; [assumption|]. split; [assumption|].
  apply Hold; [discriminate|reflexivity].
Defined.

Lemma get_expenses_by_category_spec_witness :
  planner_state sample = Some ([lunch; bus; movie], sample_budgets, 1500%Q)
  /\ exists r found w',
       get_expenses_by_category (Member FOOD) sample = (Return r, w')
       /\ lists w' !! r = Some found
       /\ In lunch found /\ ~ In bus found.
Proof.
  split; [reflexivity|].
  destruct (get_expenses_by_category_spec sample _ _ _ sample_state) as [_ Hok].
  destruct (Hok FOOD) as (r & found & w' & Hrun & _ & Hr & _ & _ & Hin).
  exists r, found, w'. split; [assumption|]. split; [assumption|]. split.
  - apply Hin. split; [now left|reflexivity].
  - intros [_ Hc]%Hin. discriminate.
Defined.

Lemma expenses_spec_witness :
  planner_state sample = Some ([lunch; bus; movie], sample_budgets, 1500%Q)
  /\ exists r w',
       expenses sample = (Return r, w')
       /\ lists w' !! r = Some [lunch; bus; movie]
       /\ r <> _expenses w'.
Proof.
  split; [reflexivity|].
  destruct (expenses_spec sample _ _ _ sample_state)
    as (r & w' & Hrun & _ & Hr & Hne & _).
  exists r, w'. auto.
Defined.

Lemma get_expenses_summary_spec_witness :
  planner_state sample = Some ([lunch; bus; movie], sample_budgets, 1500%Q)
  /\ exists s w',
       get_expenses_summary sample = (Return s, w')
       /\ expense_count s = 3
       /\ summary_monthly_budget s = 1500%Q
       /\ dicts w' !! category_budgets s = Some sample_budgets.
Proof.
  split; [reflexivity|].
  destruct (get_expenses_summary_spec sample _ _ _ sample_state)
    as (s & w' & Hrun & _ & Hcount & _ & _ & Hm & Hd & _).
  exists s, w'. auto.
Defined.

Lemma get_category_budget_total_witness :
  reachable after_lunch
  /\ exists b,
       get_category_budget (Member HEALTH) after_lunch = (Return b, after_lunch).
Proof.
  split; [exact after_lunch_reachable|].
  destruct (get_category_budget_total after_lunch after_lunch_reachable) as [Hall _].
  exact (Hall HEALTH).
Defined.

Lemma stored_ids_distinct_witness :
  reachable after_lunch
  /\ exists l d m,
       planner_state after_lunch = Some (l, d, m)
       /\ NoDup (ids l)
       /\ Forall (fun i => i <> "") (ids l).
Proof.
  split; [exact after_lunch_reachable|].
  exact (stored_ids_distinct (generator := uuid_seq_generator) uuid_seq_inj
           uuid_seq_nonempty after_lunch after_lunch_reachable).
Defined.

Lemma stored_expenses_accepted_witness :
  reachable after_lunch
  /\ exists l d m,
       planner_state after_lunch = Some (l, d, m) /\ Forall accepted l.
Proof.
  split; [exact after_lunch_reachable|].
  exact (stored_expenses_accepted after_lunch after_lunch_reachable).
Defined.

Lemma budgets_never_negative_witness :
  num_lt (zero : Q) (of_int 0) = false
  /\ reachable after_lunch
  /\ exists l d m,
       planner_state after_lunch = Some (l, d, m) /\ budgets_not_negative d m.
Proof.
  split; [reflexivity|]. split; [exact after_lunch_reachable|].
  exact (budgets_never_negative eq_refl after_lunch after_lunch_reachable).
Defined.

Lemma add_then_remove_witness :
  reachable after_lunch
  /\ add_expense dec20 "Bus" 5%Q (Member TRANSPORT) jan15 after_lunch
     = (Return "aa",
        snd (add_expense dec20 "Bus" 5%Q (Member TRANSPORT) jan15 after_lunch))
  /\ exists w2,
       remove_expense (Some "aa")
         (snd (add_expense dec20 "Bus" 5%Q (Member TRANSPORT) jan15 after_lunch))
       = (Return true, w2)
       /\ planner_state w2 = planner_state after_lunch.
Proof.
  assert (Hadd : add_expense dec20 "Bus" 5%Q (Member TRANSPORT) jan15 after_lunch
                 = (Return "aa",
                    snd (add_expense dec20 "Bus" 5%Q (Member TRANSPORT) jan15
                           after_lunch)))
    by (vm_compute; reflexivity).
  split; [exact after_lunch_reachable|]. split; [exact Hadd|].
  exact (add_then_remove (generator := uuid_seq_generator) uuid_seq_inj
           uuid_seq_nonempty after_lunch dec20 "Bus" 5%Q (Member TRANSPORT) jan15
           "aa" _ after_lunch_reachable Hadd).
Defined.

Lemma total_after_add_witness :
  planner_state sample = Some ([lunch; bus; movie], sample_budgets, 1500%Q)
  /\ add_expense dec20 "Tea" 2%Q (Member FOOD) jan20 sample
     = (Return "aaaa", snd (add_expense dec20 "Tea" 2%Q (Member FOOD) jan20 sample))
  /\ get_total_expenses (Some jan20) (Some jan20) sample
     = (Return (total [25%Q]), sample)
  /\ fst (get_total_expenses (Some jan20) (Some jan20)
            (snd (add_expense dec20 "Tea" 2%Q (Member FOOD) jan20 sample)))
     = Return (add (total [25%Q]) 2%Q).
Proof.
  assert (Hadd : add_expense dec20 "Tea" 2%Q (Member FOOD) jan20 sample
                 = (Return "aaaa",
                    snd (add_expense dec20 "Tea" 2%Q (Member FOOD) jan20 sample)))
    by (vm_compute; reflexivity).
  assert (Htotal : get_total_expenses (Some jan20) (Some jan20) sample
                   = (Return (total [25%Q]), sample))
    by (vm_compute; reflexivity).
  split; [reflexivity|]. split; [exact Hadd|]. split; [exact Htotal|].
  rewrite (total_after_add sample _ _ _ dec20 "Tea" 2%Q (Member FOOD) jan20
             "aaaa" _ jan20 jan20 _ sample_state Hadd Htotal).
  reflexivity.
Defined.

Lemma get_category_statistics_inverted_witness :
  planner_state sample = Some ([lunch; bus; movie], sample_budgets, 1500%Q)
  /\ datetime.gtb jan20 jan15 = true
  /\ exists r w',
       get_category_statistics (Some jan20) (Some jan15) sample = (Return r, w')
       /\ dicts w' !! r = Some ∅.
Proof.
  split; [reflexivity|]. split; [reflexivity|].
  destruct (get_category_statistics_inverted sample _ _ _ jan20 jan15
              sample_state eq_refl) as (r & w' & Hrun & Hr & _).
  exists r, w'. auto.
Defined.

Lemma failed_command_changes_nothing_witness :
  is_Some (planner_state sample)
  /\ raises (fst (command (C_set_monthly_budget (-1)%Q) sample))
  /\ snd (command (C_set_monthly_budget (-1)%Q) sample) = sample.
Proof.
  assert (Hsome : is_Some (planner_state sample)) by (rewrite sample_state; eauto).
  assert (Hraises : raises (fst (command (C_set_monthly_budget (-1)%Q) sample)))
    by exact I.
  split; [exact Hsome|]. split; [exact Hraises|].
  exact (proj2 (failed_command_changes_nothing _ sample Hsome Hraises)).
Defined.

Lemma get_remaining_monthly_budget_errors_witness :
  get_remaining_monthly_budget 2024 13 sample
  = (Raise (ValueError "Month must be between 1 and 12"), sample)
  /\ get_remaining_monthly_budget 0 12 sample
     = (Raise (ValueError "year 0 is out of range"), sample)
  /\ get_remaining_monthly_budget 2147483648 12 sample
     = (Raise OverflowError, sample).
Proof.
  split; [|split].
  - apply (get_remaining_monthly_budget_errors sample 2024 13). lia.
  - apply (get_remaining_monthly_budget_errors sample 0 12);
      unfold datetime.INT_MIN, datetime.INT_MAX, datetime.MINYEAR; lia.
  - apply (get_remaining_monthly_budget_errors sample 2147483648 12);
      unfold datetime.INT_MAX; lia.
Defined.

Lemma get_remaining_monthly_budget_before_december_witness :
  1 <= 11 <= 11
  /\ snd (get_remaining_monthly_budget 2024 11 sample) = sample
  /\ raises_ValueError (fst (get_remaining_monthly_budget 2024 11 sample))
  /\ fst (get_remaining_monthly_budget 2147483648 11 sample) = Raise OverflowError.
Proof.
  split; [lia|].
  destruct (get_remaining_monthly_budget_before_december sample 2024 11
              ltac:(lia)) as (Hw & Hin & _).
  destruct (get_remaining_monthly_budget_before_december sample 2147483648 11
              ltac:(lia)) as (_ & _ & Hout).
  split; [exact Hw|]. split.
  - apply Hin. unfold datetime.INT_MIN, datetime.INT_MAX. lia.
  - apply Hout. right. unfold datetime.INT_MAX. lia.
Defined.

Lemma get_remaining_monthly_budget_december_witness :
  planner_state sample = Some ([lunch; bus; movie], sample_budgets, 1500%Q)
  /\ datetime.MINYEAR <= 2024 <= datetime.MAXYEAR
  /\ fst (get_remaining_monthly_budget 2024 12 sample) = Return (sub 1500%Q (total [])).
Proof.
  split; [reflexivity|]. split; [unfold datetime.MINYEAR, datetime.MAXYEAR; lia|].
  rewrite (get_remaining_monthly_budget_december sample _ _ _ 2024 sample_state
             ltac:(unfold datetime.MINYEAR, datetime.MAXYEAR; lia)).
  reflexivity.
Defined.

(** * The scenarios of the test suite *)

Example strip_spaces : strip "  Lunch " = "Lunch".
Proof. reflexivity. Qed.

Example strip_whitespace_only : strip (String "009" (String "010" " ")) = "".
Proof. reflexivity. Qed.

Example three_expenses_total :
  fst (get_total_expenses (Some dec20) (Some dec20) three_expenses)
  = Return 45%float.
Proof. vm_compute. reflexivity. Qed.

Example three_expenses_statistics :
  returned_dict (get_category_statistics (Some dec20) (Some dec20) three_expenses)
  = Some (<[FOOD := 25%float]>
            (<[TRANSPORT := 5%float]> (<[ENTERTAINMENT := 15%float]> ∅))).
Proof. vm_compute. reflexivity. Qed.

Example groceries_within_budget :
  fst (is_category_budget_exceeded (Member FOOD) groceries) = Return false.
Proof. vm_compute. reflexivity. Qed.

Example restaurant_exceeds_budget :
  fst (is_category_budget_exceeded (Member FOOD) groceries_restaurant)
  = Return true.
Proof. vm_compute. reflexivity. Qed.

Example unset_budget_never_exceeded :
  fst (is_category_budget_exceeded (Member FOOD) unset_budget) = Return false.
Proof. vm_compute. reflexivity. Qed.

Example december_remaining :
  fst (get_remaining_monthly_budget 2024 12 december) = Return 1200%float.
Proof. vm_compute. reflexivity. Qed.

Example top_two :
  option_map (map amount) (returned_list (get_top_expenses 2 top_three))
  = Some [100%float; 50%float].
Proof. vm_compute. reflexivity. Qed.

Example inverted_range :
  fst (get_total_expenses (Some dec20) (Some jan15) three_expenses)
  = Raise (ValueError "Start date cannot be after end date").
Proof. reflexivity. Qed.

Example remove_unknown_id :
  fst (remove_expense (Some "non-existent-id") three_expenses) = Return false.
Proof. vm_compute. reflexivity. Qed.
